(** * Table rendering of the VTT command-line tool

    A shallow embedding of the two formatter scripts

      - [packages/cli/assets/format-doctor-tables.py]  (the "doctor" view)
      - [packages/cli/assets/format-storage-table.py]  (the "storage" view)

    Both scripts read one parsed JSON document, extract fields from it with
    [dict.get], build [PrettyTable] objects and print them.  The embedding
    follows that order: Python values and the operations the scripts apply to
    them, the part of PrettyTable the scripts use, then the two scripts, then
    the properties. *)

From Stdlib Require Import String Ascii List ZArith Bool Arith Lia.
From Stdlib Require Import DecimalString.
Import ListNotations.
Local Open Scope list_scope.
Local Open Scope string_scope.

(* ===================================================================== *)
(** ** Python values and exceptions *)
(* ===================================================================== *)

(** What [json.load] returns.  A dict is an association list in insertion
    order (Python dicts iterate in insertion order, and [json.load] keeps the
    document's order); lookups take the first binding of a key.  A float is
    carried by the text [str] gives for it and by its truth value. *)
#[warnings="-register-all"]
Inductive value : Type :=
| VNone
| VBool (b : bool)
| VInt (n : Z)
| VFloat (text : string) (nonzero : bool)
| VStr (s : string)
| VList (items : list value)
| VDict (entries : list (string * value)).

(** The exceptions the scripts can raise; none is caught, so each one ends
    the process with a traceback and a non-zero exit status. *)
Inductive exn : Type :=
| AttributeError
| KeyError (key : string)
| TypeError
| UnicodeEncodeError.

Definition exc (A : Type) : Type := (exn + A)%type.

Definition ok {A} (a : A) : exc A := inr a.
Definition raise {A} (e : exn) : exc A := inl e.

Definition bind {A B} (m : exc A) (k : A -> exc B) : exc B :=
  match m with
  | inl e => inl e
  | inr a => k a
  end.

Declare Scope exc_scope.
Delimit Scope exc_scope with exc.
Notation "x <- m ;; k" := (bind m (fun x => k))
  (at level 61, m at next level, right associativity) : exc_scope.
Local Open Scope exc_scope.

Module Py.

(** [bool(v)] *)
Definition truthy (v : value) : bool :=
  match v with
  | VNone => false
  | VBool b => b
  | VInt n => negb (Z.eqb n 0)
  | VFloat _ nz => nz
  | VStr s => negb (String.eqb s "")
  | VList l => match l with [] => false | _ => true end
  | VDict d => match d with [] => false | _ => true end
  end.

Fixpoint lookup (k : string) (d : list (string * value)) : option value :=
  match d with
  | [] => None
  | (k', v) :: d' => if String.eqb k k' then Some v else lookup k d'
  end.

(** [v.get(k, default)]: only a dict has the method. *)
Definition get (k : string) (default : value) (v : value) : exc value :=
  match v with
  | VDict d => ok (match lookup k d with Some x => x | None => default end)
  | _ => raise AttributeError
  end.

(** [v[k]] with a string key. *)
Definition getitem (k : string) (v : value) : exc value :=
  match v with
  | VDict d => match lookup k d with Some x => ok x | None => raise (KeyError k) end
  | _ => raise TypeError
  end.

(** [v.get(k1, {}).get(k2, {}) ... .get(kn, default)] *)
Fixpoint get_in (path : list string) (default : value) (v : value) : exc value :=
  match path with
  | [] => ok v
  | [k] => get k default v
  | k :: rest => bind (get k (VDict []) v) (get_in rest default)
  end.

(** [[x for x in xs if keep(x)]], where the test may raise. *)
Fixpoint filter_exc (keep : value -> exc bool) (xs : list value) : exc (list value) :=
  match xs with
  | [] => ok []
  | x :: xs' =>
      bind (keep x) (fun b =>
      bind (filter_exc keep xs') (fun rest =>
      ok (if b then x :: rest else rest)))
  end.

(** [[f(x) for x in xs]], where [f] may raise. *)
Fixpoint map_exc {A} (f : value -> exc A) (xs : list value) : exc (list A) :=
  match xs with
  | [] => ok []
  | x :: xs' =>
      bind (f x) (fun y =>
      bind (map_exc f xs') (fun rest =>
      ok (y :: rest)))
  end.

(** [a or b] *)
Definition or_ (a b : value) : value := if truthy a then a else b.

(** [v != "lit"] *)
Definition ne_str (v : value) (lit : string) : bool :=
  match v with
  | VStr s => negb (String.eqb s lit)
  | _ => true
  end.

(** [hash(v)], as a dict lookup needs it: lists and dicts are unhashable. *)
Definition hashable (v : value) : bool :=
  match v with
  | VList _ | VDict _ => false
  | _ => true
  end.

(** [{k1: v1, ...}.get(key, default)] on a dict literal with string keys:
    the key is hashed first, and only a str can be equal to a str. *)
Definition get_by (key : value) (default : value)
    (d : list (string * value)) : exc value :=
  if hashable key then
    ok (match key with
        | VStr k => match lookup k d with Some x => x | None => default end
        | _ => default
        end)
  else raise TypeError.

(** [lit + v] *)
Definition str_add (lit : string) (v : value) : exc string :=
  match v with
  | VStr s => ok (lit ++ s)
  | _ => raise TypeError
  end.

Definition is_continuation (c : ascii) : bool :=
  match c with
  | Ascii _ _ _ _ _ _ false true => true
  | _ => false
  end.

(** [len(s)]: strings are UTF-8 here, so the code points are counted. *)
Fixpoint len (s : string) : nat :=
  match s with
  | EmptyString => 0
  | String c s' => if is_continuation c then len s' else S (len s')
  end.

(** A lone surrogate, which [json.load] accepts from an escape such as
    ["\ud800"] and no UTF-8 stream can encode: in the bytes of the text it is
    the lead byte 237 followed by a byte from 160 to 191. *)
Fixpoint has_surrogate (s : string) : bool :=
  match s with
  | EmptyString => false
  | String a rest =>
      match rest with
      | String b _ =>
          N.eqb (N_of_ascii a) 237
          && N.leb 160 (N_of_ascii b) && N.leb (N_of_ascii b) 191
      | EmptyString => false
      end
      || has_surrogate rest
  end.

Definition printable_ascii (ch : ascii) : bool :=
  N.leb 32 (N_of_ascii ch) && N.ltb (N_of_ascii ch) 127.

(** Text made of printable ASCII characters and the two marks the doctor
    view prints, each of which takes one terminal column. *)
Fixpoint narrow (s : string) : bool :=
  match s with
  | EmptyString => true
  | String a rest =>
      if printable_ascii a then narrow rest
      else match rest with
           | String b (String c rest') =>
               (String.eqb (String a (String b (String c EmptyString))) "✓"
                || String.eqb (String a (String b (String c EmptyString))) "✗")
               && narrow rest'
           | _ => false
           end
  end.

(** The one-character strings a [for] loop over a str yields. *)
Fixpoint chars (s : string) : list string :=
  match s with
  | EmptyString => []
  | String c s' =>
      match chars s' with
      | [] => [String c EmptyString]
      | x :: xs =>
          match x with
          | String c' _ =>
              if is_continuation c' then String c x :: xs
              else String c EmptyString :: x :: xs
          | EmptyString => String c EmptyString :: xs
          end
      end
  end.

(** [for x in v]: what the loop ranges over. *)
Definition iter (v : value) : exc (list value) :=
  match v with
  | VList l => ok l
  | VDict d => ok (map (fun kv => VStr (fst kv)) d)
  | VStr s => ok (map VStr (chars s))
  | _ => raise TypeError
  end.

Definition str_of_int (n : Z) : string := NilZero.string_of_int (Z.to_int n).

Section Str.
(** [str] of a list or a dict is its [repr], whose quoting and escaping
    rules are Python's own; the scripts never inspect it, so it is taken
    as given. *)
Variable container_repr : value -> string.

(** [str(v)], also what an f-string field [{v}] expands to. *)
Definition str (v : value) : string :=
  match v with
  | VNone => "None"
  | VBool true => "True"
  | VBool false => "False"
  | VInt n => str_of_int n
  | VFloat text _ => text
  | VStr s => s
  | VList _ | VDict _ => container_repr v
  end.
End Str.

Fixpoint repeat_str (s : string) (n : nat) : string :=
  match n with
  | O => ""
  | S n' => s ++ repeat_str s n'
  end.

(** [sep.join(parts)] *)
Fixpoint join (sep : string) (parts : list string) : string :=
  match parts with
  | [] => ""
  | [p] => p
  | p :: ps => p ++ sep ++ join sep ps
  end.

Definition newline : ascii := Ascii.ascii_of_nat 10.
Definition nl : string := String newline EmptyString.

(** [s.split("\n")] *)
Fixpoint split_lines (s : string) : list string :=
  match s with
  | EmptyString => [""]
  | String c s' =>
      if Ascii.eqb c newline then "" :: split_lines s'
      else match split_lines s' with
           | l :: ls => String c l :: ls
           | [] => [String c EmptyString]
           end
  end.

Fixpoint starts_with (p s : string) : bool :=
  match p, s with
  | EmptyString, _ => true
  | String a p', String b s' => Ascii.eqb a b && starts_with p' s'
  | String _ _, EmptyString => false
  end.

(** [s.replace(old, new)] for a non-empty [old]: every occurrence, left to
    right, without overlap.  [skip] counts the characters of a match that
    are still to be dropped. *)
Fixpoint replace_from (old new : string) (skip : nat) (s : string) : string :=
  match s with
  | EmptyString => EmptyString
  | String c s' =>
      match skip with
      | S k => replace_from old new k s'
      | O =>
          if starts_with old s
          then new ++ replace_from old new (String.length old - 1) s'
          else String c (replace_from old new 0 s')
      end
  end.

Definition replace (old new s : string) : string := replace_from old new 0 s.

(** [needle in s] *)
Fixpoint contains (needle s : string) : bool :=
  starts_with needle s ||
  match s with
  | EmptyString => false
  | String _ s' => contains needle s'
  end.

(** [s.endswith(suffix)] *)
Fixpoint ends_with (suffix s : string) : bool :=
  String.eqb suffix s ||
  match s with
  | EmptyString => false
  | String _ s' => ends_with suffix s'
  end.

End Py.

(* ===================================================================== *)
(** ** PrettyTable, as the scripts use it *)
(* ===================================================================== *)

(** Every table of both scripts is created, given [border = False], filled
    with [add_row] and turned into text by [get_string] (which [print] calls
    through [__str__]).  The module covers that borderless layout: one space
    of padding on each side of a cell, columns as wide as their widest cell
    (and their field name when the header is shown), lines joined by a
    newline.  Widths are terminal columns, as the library measures them. *)
Module PrettyTable.

Inductive alignment : Type := l | c | r.

Record t : Type := mk {
  field_names : list string;
  rows : list (list value);
  header : bool;
  align : list (string * alignment)
}.

(** [PrettyTable()] *)
Definition new : t :=
  {| field_names := []; rows := []; header := true; align := [] |}.

(** [t.header = b] *)
Definition set_header (b : bool) (tb : t) : t :=
  {| field_names := field_names tb; rows := rows tb; header := b;
     align := align tb |}.

(** [t.align = a]: every column gets the alignment. *)
Definition set_align_all (a : alignment) (tb : t) : t :=
  {| field_names := field_names tb; rows := rows tb; header := header tb;
     align := (map (fun f => (f, a)) (field_names tb) ++ align tb)%list |}.

(** [t.field_names = names].  The columns of a table that had none are
    centred. *)
Definition set_field_names (names : list string) (tb : t) : t :=
  set_align_all c
    {| field_names := names; rows := rows tb; header := header tb;
       align := align tb |}.

(** [PrettyTable(names)] *)
Definition create (names : list string) : t := set_field_names names new.

(** [t.align[name] = a]: a plain store into the alignment dict, whether or
    not [name] is a column. *)
Definition set_align (name : string) (a : alignment) (tb : t) : t :=
  {| field_names := field_names tb; rows := rows tb; header := header tb;
     align := (name, a) :: align tb |}.

(** [t.add_row(row)].  The scripts pass literal lists with one cell per
    field name, so the length check of the library never fires. *)
Definition add_row (row : list value) (tb : t) : t :=
  {| field_names := field_names tb; rows := (rows tb ++ [row])%list;
     header := header tb; align := align tb |}.

(** Statements applied in program order to a fresh table. *)
Definition build (start : t) (stmts : list (t -> t)) : t :=
  fold_left (fun tb stmt => stmt tb) stmts start.

Fixpoint align_of (field : string) (al : list (string * alignment)) : alignment :=
  match al with
  | [] => c
  | (f, a) :: al' => if String.eqb field f then a else align_of field al'
  end.

(** [_get_size(text)[1]]: the number of lines. *)
Definition height_of (text : string) : nat :=
  List.length (Py.split_lines text).

(** [n * " "], empty for a negative [n]. *)
Definition spaces (n : Z) : string := Py.repeat_str " " (Z.to_nat n).

Section Render.
(** [_str_block_width(line)]: the terminal columns a line takes, which the
    library gets from wcwidth: two for a wide character, none for a
    combining one, and -1 for a line with a control character.  It rests on
    wcwidth's tables and is taken as given. *)
Variable block_width : string -> Z.
Variable container_repr : value -> string.

(** [max(_str_block_width(line) for line in lines)] *)
Definition widest (lines : list string) : Z :=
  match lines with
  | [] => 0%Z
  | line :: more =>
      fold_left (fun w x => Z.max w (block_width x)) more (block_width line)
  end.

(** [_get_size(text)[0]]: the widest line. *)
Definition width_of (text : string) : Z := widest (Py.split_lines text).

(** [_justify(text, width, align)] *)
Definition justify (text : string) (width : Z) (a : alignment) : string :=
  let excess := (width - block_width text)%Z in
  match a with
  | l => text ++ spaces excess
  | r => spaces excess ++ text
  | c =>
      if Z.odd excess then
        if Z.odd (block_width text)
        then spaces (excess / 2) ++ text ++ spaces (excess / 2 + 1)
        else spaces (excess / 2 + 1) ++ text ++ spaces (excess / 2)
      else spaces (excess / 2) ++ text ++ spaces (excess / 2)
  end.

(** One pass of [_compute_widths] over a formatted row. *)
Fixpoint widen (widths : list Z) (row : list string) : list Z :=
  match widths, row with
  | w :: ws, cell :: cells => Z.max w (width_of cell) :: widen ws cells
  | _, _ => widths
  end.

(** [_format_row]: each cell is [str(value)]. *)
Definition format_row (row : list value) : list string :=
  map (Py.str container_repr) row.

(** [_compute_widths] *)
Definition compute_widths (tb : t) (formatted : list (list string)) : list Z :=
  fold_left widen formatted
    (if header tb then map width_of (field_names tb)
     else map (fun _ => 0%Z) (field_names tb)).

(** [_stringify_header] *)
Fixpoint stringify_header (al : list (string * alignment))
    (fields : list string) (widths : list Z) : string :=
  match fields, widths with
  | f :: fs, w :: ws =>
      " " ++ justify f w (align_of f al) ++ " " ++ stringify_header al fs ws
  | _, _ => ""
  end.

(** Line [y] of a row: the [y]-th line of each cell (blank below a
    shorter cell), justified and padded. *)
Fixpoint row_line (al : list (string * alignment)) (y : nat)
    (fields : list string) (row : list string) (widths : list Z) : string :=
  match fields, row, widths with
  | f :: fs, cell :: cells, w :: ws =>
      " " ++ justify (nth y (Py.split_lines cell) "") w (align_of f al) ++ " "
      ++ row_line al y fs cells ws
  | _, _, _ => ""
  end.

(** [_stringify_row] *)
Definition stringify_row (tb : t) (widths : list Z) (row : list string) : string :=
  let row_height := list_max (map height_of row) in
  Py.join Py.nl
    (map (fun y => row_line (align tb) y (field_names tb) row widths)
         (seq 0 row_height)).

(** [get_string()] *)
Definition get_string (tb : t) : string :=
  match rows tb with
  | [] => ""
  | _ =>
      let formatted := map format_row (rows tb) in
      let widths := compute_widths tb formatted in
      Py.join Py.nl
        ((if header tb
          then [stringify_header (align tb) (field_names tb) widths]
          else []) ++ map (stringify_row tb widths) formatted)%list
  end.

(** The texts [get_string] measures: the field names, every line of a field
    name or of a cell, and the empty line that fills a shorter cell. *)
Definition measured (tb : t) : list string :=
  ("" :: field_names tb
   ++ flat_map Py.split_lines (field_names tb)
   ++ flat_map (fun row => flat_map Py.split_lines (format_row row)) (rows tb))%list.
End Render.

End PrettyTable.

(* ===================================================================== *)
(** ** Standard output *)
(* ===================================================================== *)

(** A script is run on what has been printed so far (one entry per [print]
    call) and returns what has been printed when it stops, with its result or
    the exception that stopped it.  What was printed before an exception
    stays printed. *)
Definition stdout : Type := list string.
Definition prog (A : Type) : Type := stdout -> stdout * exc A.

Definition lift {A} (m : exc A) : prog A := fun out => (out, m).

Definition pbind {A B} (m : prog A) (k : A -> prog B) : prog B :=
  fun out =>
    match m out with
    | (out', inl e) => (out', inl e)
    | (out', inr a) => k a out'
    end.

Declare Scope prog_scope.
Delimit Scope prog_scope with prog.
Notation "x <- m ;; k" := (pbind m (fun x => k))
  (at level 61, m at next level, right associativity) : prog_scope.
Notation "m ;;; k" := (pbind m (fun _ => k))
  (at level 61, right associativity) : prog_scope.

Section Output.
(** Whether the encoding of standard output has every character of a text.
    [print] encodes the whole text before it writes any of it, and raises
    when it cannot: so for a UTF-8 stream and a text with a lone
    surrogate. *)
Variable encodable : string -> bool.

(** [print(s)]; [print()] is [print encodable ""]. *)
Definition print (s : string) : prog unit :=
  fun out =>
    if encodable s then ((out ++ [s])%list, ok tt)
    else (out, raise UnicodeEncodeError).

(** [for s in lines: print(s)] *)
Fixpoint print_lines (lines : list string) : prog unit :=
  match lines with
  | [] => lift (ok tt)
  | s :: more => (print s ;;; print_lines more)%prog
  end.
End Output.

(** What a run added to standard output, given where it started. *)
Definition printed {A} (p : prog A) (out : stdout) : stdout :=
  skipn (List.length out) (fst (p out)).

(** The exit status of the process: 0, or 1 after an uncaught exception. *)
Definition exit_status {A} (result : exc A) : Z :=
  match result with
  | inr _ => 0
  | inl _ => 1
  end.

(* ===================================================================== *)
(** ** format-doctor-tables.py *)
(* ===================================================================== *)

Module Doctor.

Definition check : string := "✓".
Definition cross : string := "✗".

(** ["✓" if v else "✗"] *)
Definition mark (v : value) : string := if Py.truthy v then check else cross.

Section Script.
Variable block_width : string -> Z.
Variable container_repr : value -> string.
Variable encodable : string -> bool.

(** Lines 12-16. *)
Definition runtime_type_display (runtime_type : value) : exc value :=
  shown <- Py.get_by runtime_type runtime_type
             [("bundled", VStr "Bundled (self-contained)");
              ("system", VStr "System");
              ("custom", VStr "Custom (env override)")] ;;
  ok (Py.or_ shown runtime_type).

(** Line 18. *)
Definition runtime_type_value (runtime_type : value) : exc value :=
  display <- runtime_type_display runtime_type ;;
  if Py.ne_str runtime_type "system"
  then (s <- Py.str_add "✓ " display ;; ok (VStr s))
  else ok display.

(** Lines 20-28. *)
Definition runtime_table (runtime : value) : exc PrettyTable.t :=
  python <- Py.get "python" (VStr "") runtime ;;
  sox <- Py.get "sox" (VStr "") runtime ;;
  data_dir <- Py.get "data_dir" (VStr "") runtime ;;
  ok (PrettyTable.build PrettyTable.new
        [PrettyTable.set_header false;
         PrettyTable.set_field_names ["Runtime"; "Value"];
         PrettyTable.set_align "Runtime" PrettyTable.l;
         PrettyTable.set_align "Value" PrettyTable.l;
         PrettyTable.add_row [VStr "Python"; python];
         PrettyTable.add_row [VStr "Sox"; sox];
         PrettyTable.add_row [VStr "Data"; data_dir]]).

(** Lines 35-43. *)
Definition deps_table (system : value) : exc PrettyTable.t :=
  sox <- Py.get "sox" VNone system ;;
  afplay <- Py.get "afplay" VNone system ;;
  say <- Py.get "say" VNone system ;;
  ok (PrettyTable.build PrettyTable.new
        [PrettyTable.set_header false;
         PrettyTable.set_field_names ["Dependencies"; "Installed"];
         PrettyTable.set_align "Dependencies" PrettyTable.l;
         PrettyTable.set_align "Installed" PrettyTable.c;
         PrettyTable.add_row [VStr "Sox"; VStr (mark sox)];
         PrettyTable.add_row [VStr "afplay"; VStr (mark afplay)];
         PrettyTable.add_row [VStr "say"; VStr (mark say)]]).

(** Lines 46-56. *)
Definition stt_table (data engines : value) : exc PrettyTable.t :=
  stt_engines <- Py.get "whisper" VNone engines ;;
  parakeet_engines <- Py.get "parakeet" VNone engines ;;
  models <- Py.get "models" (VDict []) data ;;
  whisper_models <- Py.get "whisper" (VInt 0) models ;;
  models' <- Py.get "models" (VDict []) data ;;
  parakeet_models <- Py.get "parakeet" (VInt 0) models' ;;
  ok (PrettyTable.build PrettyTable.new
        [PrettyTable.set_header true;
         PrettyTable.set_field_names ["Engine"; "installed"; "Models"];
         PrettyTable.set_align "Engine" PrettyTable.l;
         PrettyTable.set_align "Status" PrettyTable.c;
         PrettyTable.set_align "Models" PrettyTable.c;
         PrettyTable.add_row [VStr "Whisper"; VStr (mark stt_engines); whisper_models];
         PrettyTable.add_row [VStr "Parakeet"; VStr (mark parakeet_engines); parakeet_models]]).

(** Line 61. *)
Definition piper_status (piper : value) : exc string :=
  available <- Py.get "available" VNone piper ;;
  ok (mark available).

(** Lines 62-64. *)
Definition kokoro_status (kokoro : value) : exc string :=
  available <- Py.get "available" VNone kokoro ;;
  server_running <- Py.get "server_running" VNone kokoro ;;
  ok (if Py.truthy server_running
      then mark available ++ " (server)"
      else mark available).

(** Lines 66-74. *)
Definition tts_table (piper kokoro : value)
    (piper_status kokoro_status : string) : exc PrettyTable.t :=
  piper_voices <- Py.get "voices" (VInt 0) piper ;;
  kokoro_voices <- Py.get "voices" (VInt 0) kokoro ;;
  ok (PrettyTable.build PrettyTable.new
        [PrettyTable.set_header true;
         PrettyTable.set_field_names ["Engine"; "installed"; "Voices"];
         PrettyTable.set_align "Engine" PrettyTable.l;
         PrettyTable.set_align "Status" PrettyTable.c;
         PrettyTable.set_align "Voices" PrettyTable.c;
         PrettyTable.add_row [VStr "Piper"; VStr piper_status; piper_voices];
         PrettyTable.add_row [VStr "Kokoro"; VStr kokoro_status; kokoro_voices]]).

(** Line 78. *)
Definition playback_status (playback : value) : exc string :=
  active <- Py.get "active" VNone playback ;;
  if Py.truthy active
  then (pid <- Py.getitem "pid" playback ;;
        ok ("Active (PID: " ++ Py.str container_repr pid ++ ")"))
  else ok "Stopped".

(** Lines 80-87. *)
Definition services_table (kokoro : value) (playback_status : string)
    : exc PrettyTable.t :=
  server_running <- Py.get "server_running" VNone kokoro ;;
  ok (PrettyTable.build PrettyTable.new
        [PrettyTable.set_header false;
         PrettyTable.set_field_names ["Service"; "Status"];
         PrettyTable.set_align "Service" PrettyTable.l;
         PrettyTable.set_align "Status" PrettyTable.l;
         PrettyTable.add_row [VStr "Playback"; VStr playback_status];
         PrettyTable.add_row
           [VStr "Kokoro Server";
            VStr (if Py.truthy server_running then "Running" else "Not running")]]).

(** [env_vars.items()] *)
Definition items (v : value) : exc (list (string * value)) :=
  match v with
  | VDict d => ok d
  | _ => raise AttributeError
  end.

(** Lines 91-100. *)
Definition env_table (env_vars : value) : exc (option PrettyTable.t) :=
  if Py.truthy env_vars then
    entries <- items env_vars ;;
    ok (Some (PrettyTable.build PrettyTable.new
                ([PrettyTable.set_header false;
                  PrettyTable.set_field_names ["VTT_"; "Value"];
                  PrettyTable.set_align "VTT_" PrettyTable.l;
                  PrettyTable.set_align "Value" PrettyTable.l]
                 ++ map (fun kv => PrettyTable.add_row [VStr (fst kv); snd kv])
                        entries)%list))
  else ok None.

(** The local variables of [main] that are alive when printing starts. *)
Record tables : Type := mk_tables {
  the_runtime_type_value : value;
  the_runtime_table : PrettyTable.t;
  the_deps_table : PrettyTable.t;
  the_stt_table : PrettyTable.t;
  the_tts_table : PrettyTable.t;
  the_services_table : PrettyTable.t;
  the_env_table : option PrettyTable.t
}.

(** Lines 9-100 of [main]: all lookups and all tables, in program
    order. *)
Definition build_tables (data : value) : exc tables :=
  runtime <- Py.get "runtime" (VDict []) data ;;
  runtime_type <- Py.get "type" (VStr "unknown") runtime ;;
  rtv <- runtime_type_value runtime_type ;;
  rt <- runtime_table runtime ;;
  deps <- Py.get "dependencies" (VDict []) data ;;
  system <- Py.get "system" (VDict []) deps ;;
  engines <- Py.get "engines" (VDict []) deps ;;
  dt <- deps_table system ;;
  st <- stt_table data engines ;;
  piper <- Py.get "piper" (VDict []) engines ;;
  kokoro <- Py.get "kokoro" (VDict []) engines ;;
  ps <- piper_status piper ;;
  ks <- kokoro_status kokoro ;;
  tt <- tts_table piper kokoro ps ks ;;
  playback <- Py.get "playback" (VDict []) data ;;
  pbs <- playback_status playback ;;
  sv <- services_table kokoro pbs ;;
  env_vars <- Py.get "environment" VNone data ;;
  et <- env_table env_vars ;;
  ok (mk_tables rtv rt dt st tt sv et).

(** [print(table)] *)
Definition print_table (tb : PrettyTable.t) : prog unit :=
  print encodable (PrettyTable.get_string block_width container_repr tb).

(** Lines 102-121 of [main]. *)
Definition print_tables (tb : tables) : prog unit :=
  (print encodable "Runtime:" ;;;
   print_table (the_runtime_table tb) ;;;
   match the_env_table tb with
   | Some env =>
       print encodable "" ;;;
       print encodable "Env Variables:" ;;;
       print_table env
   | None => lift (ok tt)
   end ;;;
   print encodable "" ;;;
   print encodable "Dependencies:" ;;;
   print_table (the_deps_table tb) ;;;
   print encodable "" ;;;
   print encodable "Speech-to-Text:" ;;;
   print_table (the_stt_table tb) ;;;
   print encodable "" ;;;
   print encodable "Text-to-Speech:" ;;;
   print_table (the_tts_table tb) ;;;
   print encodable "" ;;;
   print encodable "Background Services:" ;;;
   print_table (the_services_table tb))%prog.

(** What [print_tables] writes: the fixed headings around the tables, the
    environment block only when its table was built. *)
Definition lines_of (tb : tables) : list string :=
  (["Runtime:"; PrettyTable.get_string block_width container_repr (the_runtime_table tb)]
   ++ match the_env_table tb with
      | Some env => [""; "Env Variables:"; PrettyTable.get_string block_width container_repr env]
      | None => []
      end
   ++ [""; "Dependencies:";
       PrettyTable.get_string block_width container_repr (the_deps_table tb);
       ""; "Speech-to-Text:";
       PrettyTable.get_string block_width container_repr (the_stt_table tb);
       ""; "Text-to-Speech:";
       PrettyTable.get_string block_width container_repr (the_tts_table tb);
       ""; "Background Services:";
       PrettyTable.get_string block_width container_repr (the_services_table tb)])%list.

(** [main()], after [data = json.load(sys.stdin)]. *)
Definition main (data : value) : prog unit :=
  (tb <- lift (build_tables data) ;;
   print_tables tb)%prog.

End Script.

End Doctor.

(* ===================================================================== *)
(** ** format-storage-table.py *)
(* ===================================================================== *)

Module Storage.

(** [output.replace(a, a').replace(b, b')...], first pair first. *)
Definition replace_all (pairs : list (string * string)) (output : string) : string :=
  fold_left (fun s p => Py.replace (fst p) (snd p) s) pairs output.

Definition title : string := Py.nl ++ "VTT Storage Usage".
Definition separator : string := Py.repeat_str "=" 60 ++ Py.nl.

Section Script.
Variable block_width : string -> Z.
Variable container_repr : value -> string.
Variable encodable : string -> bool.

(** Lines 16-28: what the Dependencies block appends to [lines]. *)
Definition dependencies_lines (data : value) : exc (list string) :=
  deps <- Py.get "dependencies" (VDict []) data ;;
  python_size <- Py.get_in ["python"; "size_human"] (VStr "0 B") deps ;;
  python_path <- Py.get_in ["python"; "path"] (VStr "") deps ;;
  sox_size <- Py.get_in ["sox"; "size_human"] (VStr "0 B") deps ;;
  sox_path <- Py.get_in ["sox"; "path"] (VStr "") deps ;;
  let t := PrettyTable.build (PrettyTable.create ["Name"; "Size"; "Path"])
             [PrettyTable.set_header false;
              PrettyTable.add_row [VStr "Python"; python_size; python_path];
              PrettyTable.add_row [VStr "Sox"; sox_size; sox_path];
              PrettyTable.set_align_all PrettyTable.l;
              PrettyTable.set_align "Size" PrettyTable.r;
              PrettyTable.set_align "Path" PrettyTable.l] in
  let output := PrettyTable.get_string block_width container_repr t in
  ok ["Dependencies";
      replace_all [("Name", "  "); ("Size", ""); ("Path", "")] output;
      ""].

(** Lines 30-54: the Storage Directories block. *)
Definition directories_lines (data : value) : exc (list string) :=
  storage <- Py.get "storage" (VDict []) data ;;
  data_dir <- Py.get "data_dir" (VDict []) storage ;;
  hf_cache <- Py.get "huggingface_cache" (VDict []) storage ;;
  data_size <- Py.get "size_human" (VStr "0 B") data_dir ;;
  data_path <- Py.get "path" (VStr "") data_dir ;;
  stt <- Py.get_in ["stt"; "size_human"] (VStr "0 B") data_dir ;;
  stt_daemon <- Py.get_in ["stt"; "daemon"; "size_human"] (VStr "0 B") data_dir ;;
  stt_recordings <- Py.get_in ["stt"; "recordings"; "size_human"] (VStr "0 B") data_dir ;;
  tts <- Py.get_in ["tts"; "size_human"] (VStr "0 B") data_dir ;;
  tts_voices <- Py.get_in ["tts"; "voices"; "size_human"] (VStr "0 B") data_dir ;;
  tts_previews <- Py.get_in ["tts"; "previews"; "size_human"] (VStr "0 B") data_dir ;;
  tts_recordings <- Py.get_in ["tts"; "recordings"; "size_human"] (VStr "0 B") data_dir ;;
  tts_tmp <- Py.get_in ["tts"; "tmp"; "size_human"] (VStr "0 B") data_dir ;;
  venv <- Py.get_in ["venv"; "size_human"] (VStr "0 B") data_dir ;;
  hf_size <- Py.get "size_human" (VStr "0 B") hf_cache ;;
  hf_path <- Py.get "path" (VStr "") hf_cache ;;
  hf_models <- Py.get_in ["models"; "size_human"] (VStr "0 B") hf_cache ;;
  let t := PrettyTable.build (PrettyTable.create ["Name"; "Size"; "Description"])
             [PrettyTable.set_header false;
              PrettyTable.add_row [VStr "Data Directory"; data_size; data_path];
              PrettyTable.add_row [VStr "  stt/"; stt; VStr "(daemon, recordings)"];
              PrettyTable.add_row [VStr "    daemon/"; stt_daemon; VStr "(scripts, logs)"];
              PrettyTable.add_row [VStr "    recordings/"; stt_recordings; VStr "(transcription audio)"];
              PrettyTable.add_row [VStr "  tts/"; tts; VStr "(voices, previews, recordings)"];
              PrettyTable.add_row [VStr "    voices/"; tts_voices; VStr "(downloaded TTS voices)"];
              PrettyTable.add_row [VStr "    previews/"; tts_previews; VStr "(voice previews)"];
              PrettyTable.add_row [VStr "    recordings/"; tts_recordings; VStr "(saved TTS output)"];
              PrettyTable.add_row [VStr "    tmp/"; tts_tmp; VStr "(temporary files)"];
              PrettyTable.add_row [VStr "  venv/"; venv; VStr "(Python environment)"];
              PrettyTable.add_row [VStr "HuggingFace Cache"; hf_size; hf_path];
              PrettyTable.add_row [VStr "  models/"; hf_models; VStr "(STT models)"];
              PrettyTable.set_align_all PrettyTable.l;
              PrettyTable.set_align "Size" PrettyTable.r] in
  let output := PrettyTable.get_string block_width container_repr t in
  ok ["Storage Directories";
      replace_all [("Name", "  "); ("Size", ""); ("Description", "")] output;
      ""].

(** Line 58: the test of the comprehension. *)
Definition model_downloaded (m : value) : exc bool :=
  downloaded <- Py.get "downloaded" VNone m ;;
  ok (Py.truthy downloaded).

(** Lines 56-58. *)
Definition downloaded_models (data : value) : exc (list value) :=
  models <- Py.get "models" (VDict []) data ;;
  model_items <- Py.get "items" (VList []) models ;;
  candidates <- Py.iter model_items ;;
  Py.filter_exc model_downloaded candidates.

(** Lines 66-67: the row of one downloaded model. *)
Definition model_row (m : value) : exc (list value) :=
  found <- Py.get "path" (VStr "N/A") m ;;
  let path := Py.or_ found (VStr "N/A") in
  alias <- Py.get "alias" (VStr "") m ;;
  size <- Py.get "size_human" (VStr "0 B") m ;;
  ok [alias; size; path].

(** Lines 62-70, once the rows are known. *)
Definition models_table (table_rows : list (list value)) : PrettyTable.t :=
  PrettyTable.build (PrettyTable.create ["Alias"; "Size"; "Path"])
    ([PrettyTable.set_header false]
     ++ map PrettyTable.add_row table_rows
     ++ [PrettyTable.set_align_all PrettyTable.l;
         PrettyTable.set_align "Size" PrettyTable.r])%list.

Definition no_models : string := "  (no models downloaded)".

(** Lines 56-74: the STT Models block. *)
Definition models_lines (data : value) : exc (list string) :=
  downloaded <- downloaded_models data ;;
  match downloaded with
  | _ :: _ =>
      table_rows <- Py.map_exc model_row downloaded ;;
      let output := PrettyTable.get_string block_width container_repr (models_table table_rows) in
      ok ["STT Models";
          replace_all [("Alias", "  "); ("Size", ""); ("Path", "")] output;
          ""]
  | [] => ok ["STT Models"; no_models; ""]
  end.

(** Line 78: the test of the comprehension; [and] evaluates its right
    operand only when the left one is true. *)
Definition voice_downloaded (v : value) : exc bool :=
  downloaded <- Py.get "downloaded" VNone v ;;
  if Py.truthy downloaded
  then (provider <- Py.get "provider" VNone v ;;
        ok (Py.ne_str provider "system"))
  else ok false.

(** Lines 76-78. *)
Definition downloaded_voices (data : value) : exc (list value) :=
  voices <- Py.get "voices" (VDict []) data ;;
  voice_items <- Py.get "items" (VList []) voices ;;
  candidates <- Py.iter voice_items ;;
  Py.filter_exc voice_downloaded candidates.

(** Lines 86-87: the row of one downloaded voice. *)
Definition voice_row (v : value) : exc (list value) :=
  found <- Py.get "path" (VStr "N/A") v ;;
  let path := Py.or_ found (VStr "N/A") in
  alias <- Py.get "alias" (VStr "") v ;;
  provider <- Py.get "provider" (VStr "") v ;;
  size <- Py.get "size_human" (VStr "0 B") v ;;
  ok [alias; provider; size; path].

(** Lines 82-91, once the rows are known. *)
Definition voices_table (table_rows : list (list value)) : PrettyTable.t :=
  PrettyTable.build (PrettyTable.create ["Alias"; "Provider"; "Size"; "Path"])
    ([PrettyTable.set_header false]
     ++ map PrettyTable.add_row table_rows
     ++ [PrettyTable.set_align_all PrettyTable.l;
         PrettyTable.set_align "Provider" PrettyTable.l;
         PrettyTable.set_align "Size" PrettyTable.r])%list.

Definition no_voices : string := "  (no voices downloaded)".

(** Lines 76-95: the TTS Voices block. *)
Definition voices_lines (data : value) : exc (list string) :=
  downloaded <- downloaded_voices data ;;
  match downloaded with
  | _ :: _ =>
      table_rows <- Py.map_exc voice_row downloaded ;;
      let output := PrettyTable.get_string block_width container_repr (voices_table table_rows) in
      ok ["TTS Voices";
          replace_all [("Alias", "  "); ("Provider", ""); ("Size", ""); ("Path", "")]
            output;
          ""]
  | [] => ok ["TTS Voices"; no_voices; ""]
  end.

(** Lines 99-104. *)
Definition total_table (grand_total : value) : PrettyTable.t :=
  PrettyTable.build (PrettyTable.create ["Total Storage Used"; "Size"])
    [PrettyTable.set_header false;
     PrettyTable.add_row [VStr ""; grand_total];
     PrettyTable.set_align_all PrettyTable.l;
     PrettyTable.set_align "Size" PrettyTable.r].

(** Lines 97-105: the closing block. *)
Definition total_lines (data : value) : exc (list string) :=
  totals <- Py.get "totals" (VDict []) data ;;
  grand_total <- Py.get "grand_total_human" (VStr "0 B") totals ;;
  ok [PrettyTable.get_string block_width container_repr (total_table grand_total)].

(** [format_storage_table(json_input)], after
    [data = json.loads(json_input)].  [lines] is local and is joined only
    by the final [return]. *)
Definition format_storage_table (data : value) : exc string :=
  deps <- dependencies_lines data ;;
  dirs <- directories_lines data ;;
  models <- models_lines data ;;
  voices <- voices_lines data ;;
  total <- total_lines data ;;
  ok (Py.join Py.nl
        ([title; separator] ++ deps ++ dirs ++ models ++ voices ++ total)%list).

(** The [__main__] block: [print(format_storage_table(json_input))]. *)
Definition script (data : value) : prog unit :=
  (text <- lift (format_storage_table data) ;;
   print encodable text)%prog.

End Script.

End Storage.

(* ===================================================================== *)
(** ** Reports *)
(* ===================================================================== *)

(** The shape the collectors give the JSON document: nested mappings where
    the scripts chain [get], arrays of mappings where they iterate.  Every
    key may be missing; leaves are arbitrary. *)
Module Report.

Definition is_dict (v : value) : bool :=
  match v with
  | VDict _ => true
  | _ => false
  end.

Definition is_str (v : value) : bool :=
  match v with
  | VStr _ => true
  | _ => false
  end.

(** The field [k] of a mapping, or [default] when the key is missing. *)
Definition field (k : string) (default : value) (v : value) : value :=
  match v with
  | VDict d => match Py.lookup k d with Some x => x | None => default end
  | _ => default
  end.

(** A nested mapping, empty when missing. *)
Definition sub (k : string) (v : value) : value := field k (VDict []) v.

Definition has (k : string) (v : value) : bool :=
  match v with
  | VDict d => match Py.lookup k d with Some _ => true | None => false end
  | _ => false
  end.

(** The elements of an array field. *)
Definition elements (v : value) : list value :=
  match v with
  | VList items => items
  | _ => []
  end.

Definition is_dict_list (v : value) : bool :=
  match v with
  | VList items => forallb is_dict items
  | _ => false
  end.

(** The documents whose tables the doctor script builds: every field it
    chains [.get] on is a mapping when present, the runtime type is text,
    the process id comes with an active playback, and the environment is a
    mapping (or missing, or falsy).  On any other document the script
    raises before it prints. *)
Definition doctor (data : value) : bool :=
  is_dict data
  && is_dict (sub "runtime" data)
  && is_str (field "type" (VStr "unknown") (sub "runtime" data))
  && is_dict (sub "dependencies" data)
  && is_dict (sub "system" (sub "dependencies" data))
  && is_dict (sub "engines" (sub "dependencies" data))
  && is_dict (sub "piper" (sub "engines" (sub "dependencies" data)))
  && is_dict (sub "kokoro" (sub "engines" (sub "dependencies" data)))
  && is_dict (sub "models" data)
  && is_dict (sub "playback" data)
  && (negb (Py.truthy (field "active" VNone (sub "playback" data)))
      || has "pid" (sub "playback" data))
  && (negb (Py.truthy (field "environment" VNone data))
      || is_dict (field "environment" VNone data)).

(** The report of the storage view. *)
Definition storage (data : value) : bool :=
  is_dict data
  && is_dict (sub "dependencies" data)
  && is_dict (sub "python" (sub "dependencies" data))
  && is_dict (sub "sox" (sub "dependencies" data))
  && is_dict (sub "storage" data)
  && is_dict (sub "data_dir" (sub "storage" data))
  && is_dict (sub "huggingface_cache" (sub "storage" data))
  && is_dict (sub "stt" (sub "data_dir" (sub "storage" data)))
  && is_dict (sub "daemon" (sub "stt" (sub "data_dir" (sub "storage" data))))
  && is_dict (sub "recordings" (sub "stt" (sub "data_dir" (sub "storage" data))))
  && is_dict (sub "tts" (sub "data_dir" (sub "storage" data)))
  && is_dict (sub "voices" (sub "tts" (sub "data_dir" (sub "storage" data))))
  && is_dict (sub "previews" (sub "tts" (sub "data_dir" (sub "storage" data))))
  && is_dict (sub "recordings" (sub "tts" (sub "data_dir" (sub "storage" data))))
  && is_dict (sub "tmp" (sub "tts" (sub "data_dir" (sub "storage" data))))
  && is_dict (sub "venv" (sub "data_dir" (sub "storage" data)))
  && is_dict (sub "models" (sub "huggingface_cache" (sub "storage" data)))
  && is_dict (sub "models" data)
  && is_dict_list (field "items" (VList []) (sub "models" data))
  && is_dict (sub "voices" data)
  && is_dict_list (field "items" (VList []) (sub "voices" data))
  && is_dict (sub "totals" data).

(** The kokoro entry the doctor view reads. *)
Definition kokoro (data : value) : value :=
  sub "kokoro" (sub "engines" (sub "dependencies" data)).

Definition piper (data : value) : value :=
  sub "piper" (sub "engines" (sub "dependencies" data)).

(** The rows of the Text-to-Speech table of a doctor report. *)
Definition tts_rows (data : value) : list (list value) :=
  [[VStr "Piper";
    VStr (Doctor.mark (field "available" VNone (piper data)));
    field "voices" (VInt 0) (piper data)];
   [VStr "Kokoro";
    VStr (Doctor.mark (field "available" VNone (kokoro data))
          ++ (if Py.truthy (field "server_running" VNone (kokoro data))
              then " (server)" else ""));
    field "voices" (VInt 0) (kokoro data)]].

(** What the storage view lists, in the words of its description: the
    models whose "downloaded" flag holds, the voices whose flag holds and
    whose provider is not "system", and for each its cells, the path being
    "N/A" when missing or empty. *)
Definition model_listed (m : value) : bool :=
  Py.truthy (field "downloaded" VNone m).

Definition voice_listed (v : value) : bool :=
  Py.truthy (field "downloaded" VNone v)
  && Py.ne_str (field "provider" VNone v) "system".

Definition path_or_na (item : value) : value :=
  if Py.truthy (field "path" (VStr "N/A") item)
  then field "path" (VStr "N/A") item
  else VStr "N/A".

Definition model_cells (m : value) : list value :=
  [field "alias" (VStr "") m; field "size_human" (VStr "0 B") m; path_or_na m].

Definition voice_cells (v : value) : list value :=
  [field "alias" (VStr "") v; field "provider" (VStr "") v;
   field "size_human" (VStr "0 B") v; path_or_na v].

(** The candidates of the two filtered sections of the storage view. *)
Definition model_items (data : value) : list value :=
  elements (field "items" (VList []) (sub "models" data)).

Definition voice_items (data : value) : list value :=
  elements (field "items" (VList []) (sub "voices" data)).

End Report.

(** A stand-in for [repr] in concrete runs, whose inputs have no list or
    dict among their leaves. *)
Definition plain_repr (v : value) : string := "...".

(** The display width in concrete runs, whose texts are made of printable
    ASCII characters and the two marks, one column each: the number of code
    points. *)
Definition narrow_width (s : string) : Z := Z.of_nat (Py.len s).

(** A UTF-8 standard output: it encodes every text but one with a lone
    surrogate. *)
Definition utf8_stdout (s : string) : bool := negb (Py.has_surrogate s).

(** Documents used in the concrete runs below. *)
Module Samples.

(** [{"playback": {"active": true}}] *)
Definition active_without_pid : value :=
  VDict [("playback", VDict [("active", VBool true)])].

(** [{"runtime": {"type": "bundled"}}] and the same with ["system"]. *)
Definition bundled_runtime : value :=
  VDict [("runtime", VDict [("type", VStr "bundled")])].

Definition system_runtime : value :=
  VDict [("runtime", VDict [("type", VStr "system")])].

(** A doctor report whose kokoro engine is available, runs its server and
    has three voices. *)
Definition doctor_report : value :=
  VDict
    [("runtime", VDict [("type", VStr "bundled"); ("python", VStr "/usr/bin/python3")]);
     ("dependencies",
      VDict
        [("system", VDict [("sox", VBool true); ("afplay", VBool true)]);
         ("engines",
          VDict
            [("whisper", VBool true);
             ("piper", VDict [("available", VBool false)]);
             ("kokoro",
              VDict [("available", VBool true); ("server_running", VBool true);
                     ("voices", VInt 3)])])]);
     ("models", VDict [("whisper", VInt 2)]);
     ("playback", VDict [("active", VBool true); ("pid", VInt 4242)]);
     ("environment", VDict [("VTT_DATA_DIR", VStr "/tmp/vtt")])].

(** A storage report with one downloaded and one missing model, and voices
    of which none is listed. *)
Definition storage_report : value :=
  VDict
    [("dependencies", VDict [("python", VDict [("size_human", VStr "45.1 MB")])]);
     ("models",
      VDict
        [("items",
          VList
            [VDict [("alias", VStr "whisper-base"); ("downloaded", VBool true);
                    ("size_human", VStr "141 MB")];
             VDict [("alias", VStr "whisper-large"); ("downloaded", VBool false)]])]);
     ("voices",
      VDict
        [("items",
          VList
            [VDict [("alias", VStr "Alex"); ("downloaded", VBool true);
                    ("provider", VStr "system")];
             VDict [("alias", VStr "amy"); ("downloaded", VBool false);
                    ("provider", VStr "piper")]])]);
     ("totals", VDict [("grand_total_human", VStr "186.1 MB")])].

(** [{"dependencies": {"python": {"size_human": "12 MB",
    "path": "/opt/Size/python"}}}] *)
Definition path_with_label : value :=
  VDict
    [("dependencies",
      VDict [("python",
              VDict [("size_human", VStr "12 MB");
                     ("path", VStr "/opt/Size/python")])])].

(** A storage report that lists a model and a voice: of its voices one is
    downloaded from a provider, one is a system voice and one is not
    downloaded. *)
Definition listing_report : value :=
  VDict
    [("models",
      VDict
        [("items",
          VList
            [VDict [("alias", VStr "whisper-base"); ("downloaded", VBool true);
                    ("size_human", VStr "141 MB");
                    ("path", VStr "/hf/whisper-base")];
             VDict [("alias", VStr "whisper-large"); ("downloaded", VBool false)]])]);
     ("voices",
      VDict
        [("items",
          VList
            [VDict [("alias", VStr "amy"); ("downloaded", VBool true);
                    ("provider", VStr "piper"); ("size_human", VStr "60 MB");
                    ("path", VStr "/vtt/amy.onnx")];
             VDict [("alias", VStr "Samantha"); ("downloaded", VBool true);
                    ("provider", VStr "system")];
             VDict [("alias", VStr "heart"); ("downloaded", VBool false);
                    ("provider", VStr "kokoro")]])]);
     ("totals", VDict [("grand_total_human", VStr "201 MB")])].

(** [{"models": {"items": [{"alias": "Alias", "downloaded": true,
    "size_human": "1 MB", "path": "/m/Path"}]}}] *)
Definition model_named_alias : value :=
  VDict
    [("models",
      VDict
        [("items",
          VList
            [VDict [("alias", VStr "Alias"); ("downloaded", VBool true);
                    ("size_human", VStr "1 MB"); ("path", VStr "/m/Path")]])])].

(** A doctor document whose kokoro engine is available, runs its server and
    has three voices, and whose playback is active without a process id. *)
Definition kokoro_with_active_playback : value :=
  VDict
    [("dependencies",
      VDict
        [("engines",
          VDict
            [("kokoro",
              VDict [("available", VBool true); ("server_running", VBool true);
                     ("voices", VInt 3)])])]);
     ("playback", VDict [("active", VBool true)])].

(** [{"dependencies": 5}] *)
Definition dependencies_not_a_mapping : value :=
  VDict [("dependencies", VInt 5)].

(** The text of the escape ["\ud800"], a lone surrogate, and
    [{"runtime": {"python": "\ud800"}}]. *)
Definition lone_surrogate : string :=
  String (ascii_of_nat 237) (String (ascii_of_nat 160) (String (ascii_of_nat 128) "")).

Definition surrogate_path : value :=
  VDict [("runtime", VDict [("python", VStr lone_surrogate)])].

End Samples.

(* ===================================================================== *)
(** ** Properties *)
(* ===================================================================== *)

(** *** Lookups *)

Lemma get_dict k d v :
  Report.is_dict v = true -> Py.get k d v = ok (Report.field k d v).
Proof. destruct v; simpl; intros H; try discriminate; reflexivity. Qed.

Lemma get_not_dict k d v :
  Report.is_dict v = false -> Py.get k d v = raise AttributeError.
Proof. destruct v; simpl; intros H; try discriminate; reflexivity. Qed.

Lemma get_missing k d entries :
  Py.lookup k entries = None -> Py.get k d (VDict entries) = ok d.
Proof. intros H; simpl; rewrite H; reflexivity. Qed.

Lemma getitem_has k v :
  Report.has k v = true -> Py.getitem k v = ok (Report.field k VNone v).
Proof.
  destruct v; simpl; try discriminate.
  destruct (Py.lookup k entries); [reflexivity | discriminate].
Qed.

Lemma getitem_missing k v :
  Report.is_dict v = true -> Report.has k v = false ->
  Py.getitem k v = raise (KeyError k).
Proof.
  destruct v; simpl; try discriminate.
  destruct (Py.lookup k entries); [discriminate | reflexivity].
Qed.

Lemma get_in_pair k1 k2 d v :
  Report.is_dict v = true -> Report.is_dict (Report.sub k1 v) = true ->
  Py.get_in [k1; k2] d v = ok (Report.field k2 d (Report.sub k1 v)).
Proof.
  intros Hv Hs. cbn [Py.get_in]. rewrite (get_dict _ _ _ Hv). cbn [bind ok].
  apply get_dict, Hs.
Qed.

Lemma get_in_triple k1 k2 k3 d v :
  Report.is_dict v = true -> Report.is_dict (Report.sub k1 v) = true ->
  Report.is_dict (Report.sub k2 (Report.sub k1 v)) = true ->
  Py.get_in [k1; k2; k3] d v
  = ok (Report.field k3 d (Report.sub k2 (Report.sub k1 v))).
Proof.
  intros Hv H1 H2. cbn [Py.get_in]. rewrite (get_dict _ _ _ Hv). cbn [bind ok].
  rewrite (get_dict _ _ _ H1). cbn [bind ok]. apply get_dict, H2.
Qed.

(** Split a shape into its conjuncts. *)
Ltac shape H :=
  repeat (let H' := fresh "Hs" in apply andb_prop in H; destruct H as [H H']).

(** Run the lookups whose receiver is known to be a mapping. *)
Ltac run_gets :=
  repeat first
    [ rewrite get_in_triple by assumption
    | rewrite get_in_pair by assumption
    | rewrite get_dict by assumption ];
  cbn [bind ok].

Ltac run := repeat (progress run_gets).


(** *** Text *)

Lemma ends_with_blank_app a b :
  Py.ends_with " " b = true -> Py.ends_with " " (a ++ b) = true.
Proof.
  intros H. induction a as [| ch a IH]; [exact H |].
  cbn [append Py.ends_with]. rewrite IH. apply orb_true_r.
Qed.

Lemma ends_with_blank_snoc a : Py.ends_with " " (a ++ " ") = true.
Proof. apply ends_with_blank_app. reflexivity. Qed.

Lemma ends_with_blank_inv s :
  Py.ends_with " " s = true -> exists p, s = p ++ " ".
Proof.
  induction s as [| ch s IH]; cbn [Py.ends_with]; intros H.
  - rewrite orb_false_r in H. discriminate H.
  - apply orb_prop in H. destruct H as [H | H].
    + apply String.eqb_eq in H. exists "". symmetry. exact H.
    + destruct (IH H) as [p Hp]. exists (String ch p). rewrite Hp. reflexivity.
Qed.

Lemma join_ends_with_blank parts :
  parts <> [] ->
  Forall (fun s => Py.ends_with " " s = true) parts ->
  Py.ends_with " " (Py.join Py.nl parts) = true.
Proof.
  induction parts as [| p parts IH]; intros Hne Hall; [congruence |].
  inversion Hall as [| ? ? Hp Hrest]; subst.
  destruct parts as [| p' parts']; [exact Hp |].
  change (Py.join Py.nl (p :: p' :: parts'))
    with (p ++ Py.nl ++ Py.join Py.nl (p' :: parts')).
  apply ends_with_blank_app, ends_with_blank_app, IH; [discriminate | exact Hrest].
Qed.

Lemma no_blank_head a s :
  Py.contains " " (String a s) = false ->
  Ascii.eqb a " " = false /\ Py.contains " " s = false.
Proof.
  cbn [Py.contains Py.starts_with]. intros H. apply orb_false_elim in H.
  destruct H as [H1 H2]. rewrite andb_true_r in H1.
  rewrite Ascii.eqb_sym. split; assumption.
Qed.

Lemma replace_from_ends_with_blank old new :
  old <> "" -> Py.contains " " old = false ->
  forall p skip q,
    String.length q = skip ->
    Py.starts_with q (p ++ " ") = true ->
    Py.contains " " q = false ->
    Py.ends_with " " (Py.replace_from old new skip (p ++ " ")) = true.
Proof.
  intros Hne Hold. destruct old as [| a old']; [congruence |].
  destruct (no_blank_head _ _ Hold) as [Ha Hold'].
  induction p as [| ch p IH]; intros skip q Hlen Hpre Hq.
  - destruct q as [| b q']; cbn [String.length] in Hlen; subst skip.
    + cbn [append Py.replace_from Py.starts_with]. rewrite Ha. reflexivity.
    + destruct (no_blank_head _ _ Hq) as [Hb _].
      cbn [append Py.starts_with] in Hpre. rewrite Hb in Hpre. discriminate Hpre.
  - destruct q as [| b q']; cbn [String.length] in Hlen; subst skip.
    + change (String ch p ++ " ") with (String ch (p ++ " ")).
      cbn [Py.replace_from].
      destruct (Py.starts_with (String a old') (String ch (p ++ " "))) eqn:Hm.
      * apply ends_with_blank_app.
        cbn [Py.starts_with] in Hm. apply andb_prop in Hm. destruct Hm as [_ Hm].
        apply (IH _ old'); [| exact Hm | exact Hold'].
        cbn [String.length]. lia.
      * cbn [Py.ends_with]. rewrite (IH 0 ""); [apply orb_true_r | | |]; reflexivity.
    + destruct (no_blank_head _ _ Hq) as [_ Hq'].
      change (String ch p ++ " ") with (String ch (p ++ " ")) in *.
      cbn [Py.starts_with] in Hpre. apply andb_prop in Hpre. destruct Hpre as [_ Hpre].
      cbn [Py.replace_from]. apply (IH _ q'); [reflexivity | exact Hpre | exact Hq'].
Qed.

Lemma replace_ends_with_blank old new s :
  old <> "" -> Py.contains " " old = false ->
  Py.ends_with " " s = true ->
  Py.ends_with " " (Py.replace old new s) = true.
Proof.
  intros Hne Hold Hs. destruct (ends_with_blank_inv s Hs) as [p ->].
  unfold Py.replace. apply (replace_from_ends_with_blank old new Hne Hold p 0 "");
    reflexivity.
Qed.

Lemma replace_all_ends_with_blank pairs s :
  Forall (fun pr => fst pr <> "" /\ Py.contains " " (fst pr) = false) pairs ->
  Py.ends_with " " s = true ->
  Py.ends_with " " (Storage.replace_all pairs s) = true.
Proof.
  unfold Storage.replace_all. intros Hall. revert s.
  induction Hall as [| pr pairs [Hne Hold] _ IH]; intros s Hs; [exact Hs |].
  cbn [fold_left]. apply IH, replace_ends_with_blank; assumption.
Qed.

Lemma chars_not_empty ch s : Py.chars (String ch s) <> [].
Proof.
  cbn [Py.chars]. destruct (Py.chars s) as [| x xs]; [discriminate |].
  destruct x as [| ch' x']; [discriminate |].
  destruct (Py.is_continuation ch'); discriminate.
Qed.

Lemma replace_absent old new s :
  Py.contains old s = false -> Py.replace old new s = s.
Proof.
  unfold Py.replace. induction s as [| ch s IH]; [reflexivity |].
  cbn [Py.contains]. intros H. apply orb_false_elim in H. destruct H as [Hs Hc].
  cbn [Py.replace_from]. rewrite Hs, (IH Hc). reflexivity.
Qed.

Lemma replace_all_absent pairs s :
  Forall (fun pr => Py.contains (fst pr) s = false) pairs ->
  Storage.replace_all pairs s = s.
Proof.
  unfold Storage.replace_all. induction 1 as [| pr pairs Hpr _ IH]; [reflexivity |].
  cbn [fold_left]. rewrite (replace_absent _ _ _ Hpr). exact IH.
Qed.

Lemma split_lines_single s :
  Py.contains Py.nl s = false -> Py.split_lines s = [s].
Proof.
  induction s as [| ch s IH]; [reflexivity |].
  cbn [Py.contains]. intros H. apply orb_false_elim in H. destruct H as [Hs Hc].
  unfold Py.nl in Hs. cbn [Py.starts_with] in Hs. rewrite andb_true_r in Hs.
  cbn [Py.split_lines]. rewrite Ascii.eqb_sym, Hs, (IH Hc). reflexivity.
Qed.

Lemma filter_empty {A} (f : A -> bool) items :
  filter f items = [] <-> (forall x, In x items -> f x = false).
Proof.
  induction items as [| x items IH]; cbn [filter].
  - split; [intros _ y [] | reflexivity].
  - destruct (f x) eqn:Hx.
    + split; [discriminate |]. intros H. rewrite (H x (or_introl eq_refl)) in Hx.
      discriminate Hx.
    + rewrite IH. split.
      * intros H y [<- | Hy]; [exact Hx | exact (H y Hy)].
      * intros H y Hy. apply H. right. exact Hy.
Qed.

Lemma skipn_own_length {A} (a b : list A) : skipn (List.length a) (a ++ b) = b.
Proof. induction a as [| x a IH]; [reflexivity | exact IH]. Qed.


Lemma starts_with_app n a b :
  Py.starts_with n a = true -> Py.starts_with n (a ++ b) = true.
Proof.
  revert a. induction n as [| ch n IH]; intros a H; [reflexivity |].
  destruct a as [| ch' a]; [discriminate H |].
  cbn [Py.starts_with append] in *. apply andb_prop in H. destruct H as [H1 H2].
  rewrite H1, (IH a H2). reflexivity.
Qed.

Lemma starts_with_self n b : Py.starts_with n (n ++ b) = true.
Proof.
  induction n as [| ch n IH]; [reflexivity |].
  cbn [Py.starts_with append]. rewrite Ascii.eqb_refl, IH. reflexivity.
Qed.

Lemma contains_unfold n s :
  Py.contains n s
  = Py.starts_with n s
    || match s with
       | EmptyString => false
       | String _ s' => Py.contains n s'
       end.
Proof. destruct s; reflexivity. Qed.

Lemma contains_app_r n a b :
  Py.contains n b = true -> Py.contains n (a ++ b) = true.
Proof.
  intros H. induction a as [| ch a IH]; [exact H |].
  cbn [append]. rewrite contains_unfold, IH. apply orb_true_r.
Qed.

Lemma contains_app_l n a b :
  Py.contains n a = true -> Py.contains n (a ++ b) = true.
Proof.
  induction a as [| ch a IH]; intros H.
  - rewrite contains_unfold in H. rewrite orb_false_r in H.
    rewrite contains_unfold. rewrite (starts_with_app _ _ _ H). reflexivity.
  - rewrite contains_unfold in H. apply orb_prop in H.
    cbn [append]. rewrite contains_unfold. destruct H as [H | H].
    + change (String ch (a ++ b)) with (String ch a ++ b).
      rewrite (starts_with_app _ _ _ H). reflexivity.
    + rewrite (IH H). apply orb_true_r.
Qed.

Lemma contains_self n b : Py.contains n (n ++ b) = true.
Proof. rewrite contains_unfold, starts_with_self. reflexivity. Qed.

Lemma contains_itself n : Py.contains n n = true.
Proof.
  rewrite contains_unfold.
  assert (H : Py.starts_with n n = true).
  { induction n as [| ch n IH]; [reflexivity |].
    cbn [Py.starts_with]. rewrite Ascii.eqb_refl, IH. reflexivity. }
  rewrite H. reflexivity.
Qed.

Lemma contains_join n sep parts part :
  In part parts -> Py.contains n part = true ->
  Py.contains n (Py.join sep parts) = true.
Proof.
  intros Hin Hc. induction parts as [| p parts IH]; [destruct Hin |].
  destruct parts as [| p' parts'].
  - destruct Hin as [<- | []]. exact Hc.
  - change (Py.join sep (p :: p' :: parts'))
      with (p ++ sep ++ Py.join sep (p' :: parts')).
    destruct Hin as [<- | Hin].
    + apply contains_app_l, Hc.
    + apply contains_app_r, contains_app_r, IH, Hin.
Qed.

Lemma split_lines_not_empty s : Py.split_lines s <> [].
Proof.
  destruct s as [| ch s]; cbn [Py.split_lines]; [discriminate |].
  destruct (Ascii.eqb ch Py.newline); [discriminate |].
  destruct (Py.split_lines s); discriminate.
Qed.

(** *** Tables *)

Lemma fold_add_rows table_rows tb :
  fold_left (fun t stmt => stmt t) (map PrettyTable.add_row table_rows) tb
  = PrettyTable.mk (PrettyTable.field_names tb)
      (PrettyTable.rows tb ++ table_rows)%list
      (PrettyTable.header tb) (PrettyTable.align tb).
Proof.
  revert tb. induction table_rows as [| row table_rows IH]; intros tb.
  - cbn [map fold_left]. rewrite app_nil_r. destruct tb; reflexivity.
  - cbn [map fold_left]. rewrite IH. unfold PrettyTable.add_row.
    cbn [PrettyTable.field_names PrettyTable.rows PrettyTable.header PrettyTable.align].
    rewrite <- app_assoc. reflexivity.
Qed.

Lemma models_table_built table_rows :
  Storage.models_table table_rows
  = PrettyTable.mk ["Alias"; "Size"; "Path"] table_rows false
      [("Size", PrettyTable.r); ("Alias", PrettyTable.l); ("Size", PrettyTable.l);
       ("Path", PrettyTable.l); ("Alias", PrettyTable.c); ("Size", PrettyTable.c);
       ("Path", PrettyTable.c)].
Proof.
  unfold Storage.models_table, PrettyTable.build.
  rewrite !fold_left_app, fold_add_rows. reflexivity.
Qed.

Lemma voices_table_built table_rows :
  Storage.voices_table table_rows
  = PrettyTable.mk ["Alias"; "Provider"; "Size"; "Path"] table_rows false
      [("Size", PrettyTable.r); ("Provider", PrettyTable.l);
       ("Alias", PrettyTable.l); ("Provider", PrettyTable.l);
       ("Size", PrettyTable.l); ("Path", PrettyTable.l);
       ("Alias", PrettyTable.c); ("Provider", PrettyTable.c);
       ("Size", PrettyTable.c); ("Path", PrettyTable.c)].
Proof.
  unfold Storage.voices_table, PrettyTable.build.
  rewrite !fold_left_app, fold_add_rows. reflexivity.
Qed.

Lemma height_of_positive text : 1 <= PrettyTable.height_of text.
Proof.
  unfold PrettyTable.height_of. pose proof (split_lines_not_empty text) as H.
  destruct (Py.split_lines text); [congruence | cbn [List.length]; lia].
Qed.

Lemma list_max_bounds x xs : In x xs -> x <= list_max xs.
Proof.
  induction xs as [| y xs IH]; intros H; [destruct H |].
  cbn [list_max fold_right]. destruct H as [<- | H].
  - apply Nat.le_max_l.
  - etransitivity; [apply (IH H) | apply Nat.le_max_r].
Qed.

Section TableFacts.
Variable block_width : string -> Z.
Variable container_repr : value -> string.

Lemma widen_length widths row :
  List.length (PrettyTable.widen block_width widths row) = List.length widths.
Proof.
  revert row. induction widths as [| w widths IH]; intros [| cell row];
    cbn [PrettyTable.widen List.length]; auto.
Qed.

Lemma fold_widen_length formatted widths :
  List.length (fold_left (PrettyTable.widen block_width) formatted widths)
  = List.length widths.
Proof.
  revert widths. induction formatted as [| row formatted IH]; intros widths;
    cbn [fold_left]; [reflexivity |].
  rewrite IH. apply widen_length.
Qed.

Lemma compute_widths_length tb formatted :
  List.length (PrettyTable.compute_widths block_width tb formatted)
  = List.length (PrettyTable.field_names tb).
Proof.
  unfold PrettyTable.compute_widths. rewrite fold_widen_length.
  destruct (PrettyTable.header tb); apply length_map.
Qed.

(** Every row line ends in the padding blank of its last column. *)
Lemma row_line_ends_with_blank al y fields row widths :
  fields <> [] -> row <> [] -> widths <> [] ->
  Py.ends_with " " (PrettyTable.row_line block_width al y fields row widths) = true.
Proof.
  revert row widths. induction fields as [| f fields IH]; intros row widths Hf Hr Hw;
    [congruence |].
  destruct row as [| cell row]; [congruence |].
  destruct widths as [| w widths]; [congruence |].
  cbn [PrettyTable.row_line].
  apply ends_with_blank_app, ends_with_blank_app.
  destruct fields as [| f' fields']; [reflexivity |].
  destruct row as [| cell' row']; [reflexivity |].
  destruct widths as [| w' widths']; [reflexivity |].
  apply ends_with_blank_app, IH; discriminate.
Qed.

Lemma stringify_row_ends_with_blank tb widths row :
  PrettyTable.field_names tb <> [] -> row <> [] -> widths <> [] ->
  Py.ends_with " " (PrettyTable.stringify_row block_width tb widths row) = true.
Proof.
  intros Hf Hr Hw. unfold PrettyTable.stringify_row.
  destruct row as [| cell row]; [congruence |].
  cbn [map list_max fold_right].
  pose proof (height_of_positive cell) as Hh.
  destruct (Nat.max (PrettyTable.height_of cell)
              (fold_right Nat.max 0 (map PrettyTable.height_of row))) as [| h] eqn:Hmax;
    [lia |].
  apply join_ends_with_blank; [cbn [seq map]; discriminate |].
  apply Forall_forall. intros line Hin. apply in_map_iff in Hin.
  destruct Hin as (y & <- & _).
  apply row_line_ends_with_blank; [exact Hf | discriminate | exact Hw].
Qed.

Lemma get_string_ends_with_blank tb :
  PrettyTable.header tb = false ->
  PrettyTable.field_names tb <> [] ->
  PrettyTable.rows tb <> [] ->
  Forall (fun row => row <> []) (PrettyTable.rows tb) ->
  Py.ends_with " " (PrettyTable.get_string block_width container_repr tb) = true.
Proof.
  intros Hh Hf Hr Hrows. unfold PrettyTable.get_string.
  destruct (PrettyTable.rows tb) as [| row table_rows] eqn:Erows; [congruence |].
  rewrite Hh. cbn [app].
  apply join_ends_with_blank; [cbn [map]; discriminate |].
  apply Forall_forall. intros line Hin.
  apply in_map_iff in Hin. destruct Hin as (cells & <- & Hin).
  apply in_map_iff in Hin. destruct Hin as (r & <- & Hin).
  apply stringify_row_ends_with_blank; [exact Hf | |].
  - rewrite Forall_forall in Hrows. specialize (Hrows r Hin).
    destruct r; [congruence | discriminate].
  - intros E. apply (f_equal (@List.length Z)) in E.
    rewrite compute_widths_length in E.
    destruct (PrettyTable.field_names tb); [congruence | discriminate E].
Qed.

(** A justified text shows the text. *)
Lemma justify_shows text width a :
  Py.contains text (PrettyTable.justify block_width text width a) = true.
Proof.
  unfold PrettyTable.justify. destruct a.
  - apply contains_self.
  - cbv zeta. destruct (Z.odd (width - block_width text));
      [destruct (Z.odd (block_width text)) |]; apply contains_app_r, contains_self.
  - apply contains_app_r, contains_itself.
Qed.

(** Line [y] of a row shows line [y] of each of its cells. *)
Lemma row_line_shows al y fields row widths cell :
  List.length row = List.length fields ->
  List.length widths = List.length fields ->
  In cell row ->
  Py.contains (nth y (Py.split_lines cell) "")
    (PrettyTable.row_line block_width al y fields row widths) = true.
Proof.
  revert row widths. induction fields as [| f fields IH]; intros row widths Hr Hw Hin.
  - destruct row; [destruct Hin | discriminate Hr].
  - destruct row as [| first row]; [destruct Hin |].
    destruct widths as [| w widths]; [discriminate Hw |].
    cbn [PrettyTable.row_line]. cbn [List.length] in Hr, Hw.
    destruct Hin as [-> | Hin].
    + apply contains_app_r, contains_app_l, justify_shows.
    + apply contains_app_r, contains_app_r, contains_app_r, IH; [lia | lia | exact Hin].
Qed.

Lemma stringify_row_shows tb widths row cell line :
  List.length row = List.length (PrettyTable.field_names tb) ->
  List.length widths = List.length (PrettyTable.field_names tb) ->
  In cell row -> In line (Py.split_lines cell) ->
  Py.contains line (PrettyTable.stringify_row block_width tb widths row) = true.
Proof.
  intros Hr Hw Hcell Hline. unfold PrettyTable.stringify_row.
  destruct (In_nth _ _ "" Hline) as (y & Hy & Hnth).
  apply (contains_join _ _ _
           (PrettyTable.row_line block_width (PrettyTable.align tb) y
              (PrettyTable.field_names tb) row widths)).
  - apply in_map_iff. exists y. split; [reflexivity |].
    apply in_seq. split; [lia |]. cbn [Nat.add].
    apply Nat.lt_le_trans with (PrettyTable.height_of cell); [exact Hy |].
    apply list_max_bounds, in_map, Hcell.
  - rewrite <- Hnth. apply row_line_shows; assumption.
Qed.

(** The text of a table shows every line of every cell of its rows. *)
Lemma get_string_shows tb row cell line :
  In row (PrettyTable.rows tb) ->
  List.length row = List.length (PrettyTable.field_names tb) ->
  In cell (PrettyTable.format_row container_repr row) ->
  In line (Py.split_lines cell) ->
  Py.contains line (PrettyTable.get_string block_width container_repr tb) = true.
Proof.
  intros Hrow Hlen Hcell Hline. unfold PrettyTable.get_string.
  destruct (PrettyTable.rows tb) as [| r0 rest] eqn:Erows; [destruct Hrow |].
  rewrite <- Erows in *. clear Erows r0 rest.
  eapply contains_join.
  - apply in_or_app. right. apply in_map, in_map, Hrow.
  - apply stringify_row_shows with (cell := cell).
    + unfold PrettyTable.format_row. rewrite length_map. exact Hlen.
    + apply compute_widths_length.
    + exact Hcell.
    + exact Hline.
Qed.

End TableFacts.

(** The text of a table depends on the width measure only through the texts
    it measures. *)
Section Measure.
Variables bw bw' : string -> Z.
Variable container_repr : value -> string.

Lemma widest_ext lines :
  (forall x, In x lines -> bw x = bw' x) ->
  PrettyTable.widest bw lines = PrettyTable.widest bw' lines.
Proof.
  unfold PrettyTable.widest. destruct lines as [| line more]; [reflexivity |].
  intros H. rewrite (H line (or_introl eq_refl)).
  assert (Hm : forall x, In x more -> bw x = bw' x) by (intros x Hx; apply H; right; exact Hx).
  clear H. generalize (bw' line). induction more as [| x more IH]; intros w; [reflexivity |].
  cbn [fold_left]. rewrite (Hm x (or_introl eq_refl)).
  apply IH. intros y Hy. apply Hm. right. exact Hy.
Qed.

Lemma widen_ext widths row :
  (forall x, In x (flat_map Py.split_lines row) -> bw x = bw' x) ->
  PrettyTable.widen bw widths row = PrettyTable.widen bw' widths row.
Proof.
  revert widths. induction row as [| cell row IH]; intros widths H.
  - destruct widths; reflexivity.
  - destruct widths as [| w widths]; [reflexivity |].
    cbn [PrettyTable.widen]. unfold PrettyTable.width_of.
    rewrite (widest_ext (Py.split_lines cell)), IH; [reflexivity | |].
    + intros x Hx. apply H. cbn [flat_map]. apply in_or_app. right. exact Hx.
    + intros x Hx. apply H. cbn [flat_map]. apply in_or_app. left. exact Hx.
Qed.

Lemma fold_widen_ext formatted widths :
  (forall x, In x (flat_map (flat_map Py.split_lines) formatted) -> bw x = bw' x) ->
  fold_left (PrettyTable.widen bw) formatted widths
  = fold_left (PrettyTable.widen bw') formatted widths.
Proof.
  revert widths. induction formatted as [| row formatted IH]; intros widths H;
    [reflexivity |].
  cbn [fold_left]. rewrite (widen_ext widths row), IH; [reflexivity | |].
  - intros x Hx. apply H. cbn [flat_map]. apply in_or_app. right. exact Hx.
  - intros x Hx. apply H. cbn [flat_map]. apply in_or_app. left. exact Hx.
Qed.

Lemma justify_ext text width a :
  bw text = bw' text ->
  PrettyTable.justify bw text width a = PrettyTable.justify bw' text width a.
Proof. intros H. unfold PrettyTable.justify. rewrite H. reflexivity. Qed.

Lemma stringify_header_ext al fields widths :
  (forall x, In x fields -> bw x = bw' x) ->
  PrettyTable.stringify_header bw al fields widths
  = PrettyTable.stringify_header bw' al fields widths.
Proof.
  revert widths. induction fields as [| f fields IH]; intros widths H; [reflexivity |].
  destruct widths as [| w widths]; [reflexivity |].
  cbn [PrettyTable.stringify_header].
  rewrite (justify_ext f w _ (H f (or_introl eq_refl))), IH; [reflexivity |].
  intros x Hx. apply H. right. exact Hx.
Qed.

Lemma row_line_ext al y fields row widths :
  bw "" = bw' "" ->
  (forall x, In x (flat_map Py.split_lines row) -> bw x = bw' x) ->
  PrettyTable.row_line bw al y fields row widths
  = PrettyTable.row_line bw' al y fields row widths.
Proof.
  intros H0. revert row widths. induction fields as [| f fields IH];
    intros row widths H; [reflexivity |].
  destruct row as [| cell row]; [reflexivity |].
  destruct widths as [| w widths]; [reflexivity |].
  cbn [PrettyTable.row_line]. rewrite IH.
  - rewrite (justify_ext (nth y (Py.split_lines cell) "") w); [reflexivity |].
    destruct (nth_in_or_default y (Py.split_lines cell) "") as [Hin | ->];
      [| exact H0].
    apply H. cbn [flat_map]. apply in_or_app. left. exact Hin.
  - intros x Hx. apply H. cbn [flat_map]. apply in_or_app. right. exact Hx.
Qed.

Lemma stringify_row_ext tb widths row :
  bw "" = bw' "" ->
  (forall x, In x (flat_map Py.split_lines row) -> bw x = bw' x) ->
  PrettyTable.stringify_row bw tb widths row
  = PrettyTable.stringify_row bw' tb widths row.
Proof.
  intros H0 H. unfold PrettyTable.stringify_row. f_equal.
  apply map_ext. intros y. apply row_line_ext; assumption.
Qed.

Lemma get_string_ext tb :
  (forall x, In x (PrettyTable.measured container_repr tb) -> bw x = bw' x) ->
  PrettyTable.get_string bw container_repr tb
  = PrettyTable.get_string bw' container_repr tb.
Proof.
  unfold PrettyTable.measured. intros H.
  assert (H0 : bw "" = bw' "") by (apply H; left; reflexivity).
  assert (Hf : forall x, In x (PrettyTable.field_names tb) -> bw x = bw' x).
  { intros x Hx. apply H. right. apply in_or_app. left. exact Hx. }
  assert (Hfl : forall x, In x (flat_map Py.split_lines (PrettyTable.field_names tb)) ->
                          bw x = bw' x).
  { intros x Hx. apply H. right. apply in_or_app. right. apply in_or_app. left. exact Hx. }
  assert (Hc : forall x,
             In x (flat_map (fun row => flat_map Py.split_lines
                                          (PrettyTable.format_row container_repr row))
                     (PrettyTable.rows tb)) -> bw x = bw' x).
  { intros x Hx. apply H. right. apply in_or_app. right. apply in_or_app. right. exact Hx. }
  assert (Hw : PrettyTable.compute_widths bw tb
                 (map (PrettyTable.format_row container_repr) (PrettyTable.rows tb))
               = PrettyTable.compute_widths bw' tb
                   (map (PrettyTable.format_row container_repr) (PrettyTable.rows tb))).
  { unfold PrettyTable.compute_widths.
    assert (Hinit : map (PrettyTable.width_of bw) (PrettyTable.field_names tb)
                    = map (PrettyTable.width_of bw') (PrettyTable.field_names tb)).
    { apply map_ext_in. intros f Hin. unfold PrettyTable.width_of. apply widest_ext.
      intros x Hx. apply Hfl. apply in_flat_map. exists f. split; assumption. }
    rewrite Hinit. apply fold_widen_ext.
    intros x Hx. apply Hc. rewrite flat_map_concat_map in *.
    rewrite map_map in Hx. exact Hx. }
  unfold PrettyTable.get_string.
  destruct (PrettyTable.rows tb) as [| r0 rest] eqn:Erows; [reflexivity |].
  rewrite <- Erows in *. clear Erows r0 rest. rewrite Hw. f_equal. f_equal.
  - destruct (PrettyTable.header tb); [| reflexivity].
    rewrite (stringify_header_ext _ _ _ Hf). reflexivity.
  - rewrite !map_map. apply map_ext_in. intros row Hrow.
    apply stringify_row_ext; [exact H0 |].
    intros x Hx. apply Hc. apply in_flat_map. exists row. split; assumption.
Qed.

End Measure.

(** For a table of narrow texts every width is a count of code points. *)
Lemma get_string_narrow block_width container_repr tb :
  (forall s, Py.narrow s = true -> block_width s = Z.of_nat (Py.len s)) ->
  forallb Py.narrow (PrettyTable.measured container_repr tb) = true ->
  PrettyTable.get_string block_width container_repr tb
  = PrettyTable.get_string narrow_width container_repr tb.
Proof.
  intros Hn Hall. apply get_string_ext. intros x Hx.
  rewrite forallb_forall in Hall. apply Hn, Hall, Hx.
Qed.

(** *** Standard output *)

Section OutputFacts.
Variable encodable : string -> bool.

(** Lines that can all be encoded are all printed. *)
Lemma print_lines_all lines out :
  forallb encodable lines = true ->
  print_lines encodable lines out = ((out ++ lines)%list, ok tt).
Proof.
  revert out. induction lines as [| s lines IH]; intros out H.
  - cbn [print_lines]. unfold lift. rewrite app_nil_r. reflexivity.
  - cbn [forallb] in H. apply andb_prop in H. destruct H as [Hs Hl].
    cbn [print_lines]. unfold pbind, print. rewrite Hs, (IH _ Hl).
    rewrite <- app_assoc. reflexivity.
Qed.

(** Otherwise printing stops at the first line that cannot be encoded,
    with the lines before it printed. *)
Lemma print_lines_stops lines out :
  forallb encodable lines = false ->
  exists k,
    k < List.length lines
    /\ forallb encodable (firstn k lines) = true
    /\ encodable (nth k lines "") = false
    /\ print_lines encodable lines out
       = ((out ++ firstn k lines)%list, raise UnicodeEncodeError).
Proof.
  revert out. induction lines as [| s lines IH]; intros out H; [discriminate H |].
  cbn [forallb] in H. cbn [print_lines]. unfold pbind, print.
  destruct (encodable s) eqn:Hs.
  - cbn [andb] in H. destruct (IH (out ++ [s])%list H) as (k & Hk & Hf & Hn & Hp).
    exists (S k). cbn [List.length firstn nth forallb]. rewrite Hs, Hf, Hp, <- app_assoc.
    repeat split; try assumption. lia.
  - exists 0. cbn [List.length firstn nth forallb]. rewrite app_nil_r.
    repeat split; try assumption. lia.
Qed.

(** In every case a run of [print_lines] stops without exception exactly
    when all lines can be encoded. *)
Lemma print_lines_completes lines out :
  snd (print_lines encodable lines out) = ok tt <-> forallb encodable lines = true.
Proof.
  destruct (forallb encodable lines) eqn:H.
  - rewrite (print_lines_all _ _ H). split; reflexivity.
  - destruct (print_lines_stops _ out H) as (k & _ & _ & _ & ->).
    split; discriminate.
Qed.

End OutputFacts.

Lemma skipn_own_length_nil {A} (out : list A) : skipn (List.length out) out = [].
Proof. rewrite <- (app_nil_r out) at 2. apply skipn_own_length. Qed.

(** *** The doctor view *)

Section DoctorFacts.
Variable block_width : string -> Z.
Variable container_repr : value -> string.
Variable encodable : string -> bool.

(** The label of a runtime type, lines 12-16. *)
Lemma runtime_type_display_str s :
  Doctor.runtime_type_display (VStr s)
  = ok (VStr (if String.eqb s "bundled" then "Bundled (self-contained)"
              else if String.eqb s "system" then "System"
              else if String.eqb s "custom" then "Custom (env override)"
              else s)).
Proof.
  unfold Doctor.runtime_type_display, Py.get_by. cbn [Py.hashable bind ok Py.lookup].
  destruct (String.eqb s "bundled"); [reflexivity |].
  destruct (String.eqb s "system"); [reflexivity |].
  destruct (String.eqb s "custom"); [reflexivity |].
  unfold Py.or_. destruct (Py.truthy (VStr s)); reflexivity.
Qed.

(** The value of line 18, which no later line reads. *)
Lemma runtime_type_value_str s :
  Doctor.runtime_type_value (VStr s)
  = ok (VStr (if String.eqb s "system" then "System"
              else "✓ " ++
                   (if String.eqb s "bundled" then "Bundled (self-contained)"
                    else if String.eqb s "custom" then "Custom (env override)"
                    else s))).
Proof.
  unfold Doctor.runtime_type_value. rewrite runtime_type_display_str.
  cbn [bind ok Py.ne_str].
  destruct (String.eqb s "bundled") eqn:Hb.
  - apply String.eqb_eq in Hb; subst s; reflexivity.
  - destruct (String.eqb s "system"); reflexivity.
Qed.

Lemma kokoro_status_dict kokoro :
  Report.is_dict kokoro = true ->
  Doctor.kokoro_status kokoro
  = ok (Doctor.mark (Report.field "available" VNone kokoro)
        ++ (if Py.truthy (Report.field "server_running" VNone kokoro)
            then " (server)" else "")).
Proof.
  intros H. unfold Doctor.kokoro_status. run.
  destruct (Py.truthy _); [reflexivity |].
  unfold Doctor.mark, Doctor.check, Doctor.cross.
  destruct (Py.truthy _); reflexivity.
Qed.

Lemma playback_status_ok playback :
  Report.is_dict playback = true ->
  negb (Py.truthy (Report.field "active" VNone playback))
  || Report.has "pid" playback = true ->
  exists text, Doctor.playback_status container_repr playback = ok text.
Proof.
  intros H Hp. unfold Doctor.playback_status. run.
  destruct (Py.truthy _); simpl in Hp.
  - rewrite (getitem_has _ _ Hp). cbn [bind ok]. eauto.
  - eauto.
Qed.

Lemma env_table_ok env_vars :
  negb (Py.truthy env_vars) || Report.is_dict env_vars = true ->
  exists et, Doctor.env_table env_vars = ok et.
Proof.
  intros H. unfold Doctor.env_table.
  destruct (Py.truthy env_vars); simpl in H; [| eauto].
  destruct env_vars; try discriminate. cbn [Doctor.items bind ok]. eauto.
Qed.

(** A report of the doctor view: every lookup succeeds and the tables are
    built. *)
Lemma build_tables_ok data :
  Report.doctor data = true ->
  exists tb playback_text,
    Doctor.build_tables container_repr data = ok tb
    /\ Doctor.the_tts_table tb
       = PrettyTable.mk ["Engine"; "installed"; "Voices"] (Report.tts_rows data) true
           [("Voices", PrettyTable.c); ("Status", PrettyTable.c);
            ("Engine", PrettyTable.l); ("Engine", PrettyTable.c);
            ("installed", PrettyTable.c); ("Voices", PrettyTable.c)]
    /\ PrettyTable.rows (Doctor.the_services_table tb)
       = [[VStr "Playback"; VStr playback_text];
          [VStr "Kokoro Server";
           VStr (if Py.truthy (Report.field "server_running" VNone (Report.kokoro data))
                 then "Running" else "Not running")]].
Proof.
  intros H. unfold Report.doctor in H. shape H.
  destruct (playback_status_ok _ Hs1 Hs0) as [text Ht].
  destruct (env_table_ok _ Hs) as [et He].
  destruct (Report.field "type" (VStr "unknown") (Report.sub "runtime" data))
    as [| | | | s | |] eqn:Hty; try discriminate.
  unfold Doctor.build_tables, Report.sub in *. run.
  rewrite Hty, runtime_type_value_str. cbn [bind ok].
  unfold Doctor.runtime_table, Doctor.deps_table, Doctor.stt_table. run.
  unfold Doctor.piper_status. run.
  rewrite kokoro_status_dict by assumption. cbn [bind ok].
  unfold Doctor.tts_table. run.
  rewrite Ht. cbn [bind ok].
  unfold Doctor.services_table. run.
  rewrite He. cbn [bind ok].
  eexists; eexists; split; [reflexivity |]. split; reflexivity.
Qed.

Lemma pbind_print {B} s (k : unit -> prog B) out :
  pbind (print encodable s) k out
  = if encodable s then k tt (out ++ [s])%list else (out, raise UnicodeEncodeError).
Proof. unfold pbind, print. destruct (encodable s); reflexivity. Qed.

Lemma pbind_assoc {A B C} (m : prog A) (k : A -> prog B) (k' : B -> prog C) out :
  pbind (pbind m k) k' out = pbind m (fun a => pbind (k a) k') out.
Proof. unfold pbind. destruct (m out) as [out' [e | a]]; reflexivity. Qed.

Lemma pbind_lift_ok {A B} (a : A) (k : A -> prog B) out :
  pbind (lift (ok a)) k out = k a out.
Proof. reflexivity. Qed.

(** [print_tables] prints its lines one after the other. *)
Lemma print_tables_lines tb out :
  Doctor.print_tables block_width container_repr encodable tb out
  = print_lines encodable (Doctor.lines_of block_width container_repr tb) out.
Proof.
  unfold Doctor.print_tables, Doctor.lines_of, Doctor.print_table.
  destruct (Doctor.the_env_table tb) as [env |]; cbn [app print_lines];
    repeat first [rewrite pbind_assoc | rewrite pbind_print | rewrite pbind_lift_ok];
    unfold print, lift; reflexivity.
Qed.

(** [main] writes nothing unless every table was built, and then prints
    the lines of the tables in their order. *)
Lemma main_run data out :
  Doctor.main block_width container_repr encodable data out
  = match Doctor.build_tables container_repr data with
    | inl e => (out, inl e)
    | inr tb =>
        print_lines encodable (Doctor.lines_of block_width container_repr tb) out
    end.
Proof.
  unfold Doctor.main, pbind, lift.
  destruct (Doctor.build_tables container_repr data); [reflexivity |].
  apply print_tables_lines.
Qed.

End DoctorFacts.

Section KokoroLine.
Variable block_width : string -> Z.
Variable container_repr : value -> string.
Hypothesis narrow_widths :
  forall s, Py.narrow s = true -> block_width s = Z.of_nat (Py.len s).

Lemma kokoro_line available piper_voices :
  exists w header piper_line,
    (6 <= w)%Z
    /\ PrettyTable.get_string block_width container_repr
         (PrettyTable.mk ["Engine"; "installed"; "Voices"]
            [[VStr "Piper"; VStr (Doctor.mark available); piper_voices];
             [VStr "Kokoro"; VStr "✓ (server)"; VInt 3]] true
            [("Voices", PrettyTable.c); ("Status", PrettyTable.c);
             ("Engine", PrettyTable.l); ("Engine", PrettyTable.c);
             ("installed", PrettyTable.c); ("Voices", PrettyTable.c)])
       = Py.join Py.nl
           [header; piper_line;
            " Kokoro  ✓ (server)  "
            ++ PrettyTable.justify block_width "3" w PrettyTable.c ++ " "].
Proof.
  exists (Z.max (Z.max 6 (PrettyTable.width_of block_width
                            (Py.str container_repr piper_voices))) 1).
  eexists. eexists. split; [lia |].
  unfold PrettyTable.get_string, PrettyTable.compute_widths.
  cbn [PrettyTable.rows PrettyTable.header PrettyTable.field_names PrettyTable.align
       map app fold_left PrettyTable.format_row PrettyTable.widen].
  do 3 f_equal.
  generalize (PrettyTable.width_of block_width (Py.str container_repr piper_voices)) as n.
  intros n.
  assert (Hm : block_width (Doctor.mark available) = 1%Z).
  { unfold Doctor.mark. destruct (Py.truthy available);
      rewrite narrow_widths; reflexivity. }
  unfold PrettyTable.stringify_row, PrettyTable.width_of, PrettyTable.justify.
  cbn [Py.str map PrettyTable.field_names PrettyTable.align].
  change (Py.str_of_int 3) with "3".
  change (Py.split_lines "Engine") with ["Engine"].
  change (Py.split_lines "Piper") with ["Piper"].
  change (Py.split_lines "Kokoro") with ["Kokoro"].
  change (Py.split_lines "installed") with ["installed"].
  change (Py.split_lines "Voices") with ["Voices"].
  change (Py.split_lines "✓ (server)") with ["✓ (server)"].
  change (Py.split_lines "3") with ["3"].
  assert (Hs : Py.split_lines (Doctor.mark available) = [Doctor.mark available]).
  { unfold Doctor.mark. destruct (Py.truthy available); reflexivity. }
  rewrite Hs. cbn [PrettyTable.widest fold_left].
  rewrite Hm.
  rewrite !(narrow_widths "Engine" eq_refl), !(narrow_widths "Piper" eq_refl),
    !(narrow_widths "Kokoro" eq_refl), !(narrow_widths "installed" eq_refl),
    !(narrow_widths "Voices" eq_refl), !(narrow_widths "✓ (server)" eq_refl),
    !(narrow_widths "3" eq_refl).
  change (Z.of_nat (Py.len "Voices")) with 6%Z.
  change (Z.of_nat (Py.len "3")) with 1%Z.
  generalize (Z.max (Z.max 6 n) 1) as w. intros w.
  unfold PrettyTable.height_of.
  change (Py.split_lines "Kokoro") with ["Kokoro"].
  change (Py.split_lines "✓ (server)") with ["✓ (server)"].
  change (Py.split_lines "3") with ["3"].
  cbn [length list_max map seq fold_right Nat.max PrettyTable.row_line nth
       PrettyTable.align_of String.eqb Ascii.eqb Bool.eqb].
  change (Py.split_lines "Kokoro") with ["Kokoro"].
  change (Py.split_lines "✓ (server)") with ["✓ (server)"].
  change (Py.split_lines "3") with ["3"].
  cbn [nth]. unfold PrettyTable.justify.
  rewrite !(narrow_widths "Kokoro" eq_refl), !(narrow_widths "✓ (server)" eq_refl),
    !(narrow_widths "3" eq_refl).
  reflexivity.
Qed.
End KokoroLine.

Lemma runtime_type_value_not_str v :
  Report.is_str v = false -> Doctor.runtime_type_value v = raise TypeError.
Proof.
  intros H. unfold Doctor.runtime_type_value, Doctor.runtime_type_display, Py.get_by.
  destruct v; try discriminate H; cbn [Py.hashable bind ok raise]; try reflexivity;
    unfold Py.or_; destruct (Py.truthy _); reflexivity.
Qed.

Section DoctorBehaviour.
Variable container_repr : value -> string.

(** Stop with the exception of the next lookup in [H] unless its receiver
    [v] is a mapping. *)
Ltac need_dict H v :=
  let E := fresh "E" in
  destruct (Report.is_dict v) eqn:E;
  [ repeat (rewrite (get_dict _ _ _ E) in H; cbn [bind ok] in H)
  | rewrite (get_not_dict _ _ _ E) in H;
    first [discriminate H | injection H as <-; auto] ].

(** How the building of the tables ends on any document: with the tables
    for a document of the doctor shape, with [AttributeError] or
    [TypeError], or with the [KeyError] of line 78 for an active playback
    that has no process id. *)
Lemma build_tables_outcome data :
  match Doctor.build_tables container_repr data with
  | inr tb => Report.doctor data = true
  | inl e =>
      e = AttributeError \/ e = TypeError
      \/ (e = KeyError "pid"
          /\ Py.truthy (Report.field "active" VNone (Report.sub "playback" data)) = true
          /\ Report.has "pid" (Report.sub "playback" data) = false)
  end.
Proof.
  destruct (Doctor.build_tables container_repr data) as [e | tb] eqn:H;
    unfold Doctor.build_tables in H.
  - need_dict H data.
    need_dict H (Report.field "runtime" (VDict []) data).
    destruct (Report.is_str
                (Report.field "type" (VStr "unknown")
                   (Report.field "runtime" (VDict []) data))) eqn:Ety;
      [| rewrite (runtime_type_value_not_str _ Ety) in H; injection H as <-; auto].
    destruct (Report.field "type" (VStr "unknown") (Report.field "runtime" (VDict []) data))
      as [| | | | s | |] eqn:Hty; try discriminate Ety.
    rewrite runtime_type_value_str in H. cbn [bind ok] in H.
    unfold Doctor.runtime_table in H.
    repeat (rewrite (get_dict _ _ _ E0) in H; cbn [bind ok] in H).
    need_dict H (Report.field "dependencies" (VDict []) data).
    unfold Doctor.deps_table in H.
    need_dict H (Report.field "system" (VDict [])
                   (Report.field "dependencies" (VDict []) data)).
    unfold Doctor.stt_table in H.
    need_dict H (Report.field "engines" (VDict [])
                   (Report.field "dependencies" (VDict []) data)).
    repeat (rewrite (get_dict _ _ _ E) in H; cbn [bind ok] in H).
    need_dict H (Report.field "models" (VDict []) data).
    repeat (rewrite (get_dict _ _ _ E) in H; cbn [bind ok] in H).
    repeat (rewrite (get_dict _ _ _ E4) in H; cbn [bind ok] in H).
    repeat (rewrite (get_dict _ _ _ E3) in H; cbn [bind ok] in H).
    unfold Doctor.piper_status in H.
    need_dict H (Report.field "piper" (VDict [])
                   (Report.field "engines" (VDict [])
                      (Report.field "dependencies" (VDict []) data))).
    unfold Doctor.kokoro_status in H.
    need_dict H (Report.field "kokoro" (VDict [])
                   (Report.field "engines" (VDict [])
                      (Report.field "dependencies" (VDict []) data))).
    unfold Doctor.tts_table in H.
    repeat (rewrite (get_dict _ _ _ E5) in H; cbn [bind ok] in H).
    repeat (rewrite (get_dict _ _ _ E6) in H; cbn [bind ok] in H).
    repeat (rewrite (get_dict _ _ _ E) in H; cbn [bind ok] in H).
    unfold Doctor.playback_status in H.
    need_dict H (Report.field "playback" (VDict []) data).
    unfold Report.sub.
    destruct (Py.truthy (Report.field "active" VNone
                           (Report.field "playback" (VDict []) data))) eqn:Ea.
    + destruct (Report.has "pid" (Report.field "playback" (VDict []) data)) eqn:Ep.
      * rewrite (getitem_has _ _ Ep) in H. cbn [bind ok] in H.
        unfold Doctor.services_table, Doctor.env_table in H.
        rewrite ?(get_dict _ _ _ E6), ?(get_dict _ _ _ E) in H. cbn [bind ok] in H.
        destruct (Py.truthy (Report.field "environment" VNone data));
          [| discriminate H].
        destruct (Report.field "environment" VNone data);
          first [discriminate H | injection H as <-; auto].
      * rewrite (getitem_missing _ _ E7 Ep) in H. injection H as <-. auto.
    + cbn [bind ok] in H.
      unfold Doctor.services_table, Doctor.env_table in H.
      rewrite ?(get_dict _ _ _ E6), ?(get_dict _ _ _ E) in H. cbn [bind ok] in H.
      destruct (Py.truthy (Report.field "environment" VNone data));
        [| discriminate H].
      destruct (Report.field "environment" VNone data);
        first [discriminate H | injection H as <-; auto].
  - need_dict H data.
    need_dict H (Report.field "runtime" (VDict []) data).
    destruct (Report.is_str
                (Report.field "type" (VStr "unknown")
                   (Report.field "runtime" (VDict []) data))) eqn:Ety;
      [| rewrite (runtime_type_value_not_str _ Ety) in H; discriminate H].
    destruct (Report.field "type" (VStr "unknown") (Report.field "runtime" (VDict []) data))
      as [| | | | s | |] eqn:Hty; try discriminate Ety.
    rewrite runtime_type_value_str in H. cbn [bind ok] in H.
    unfold Doctor.runtime_table in H.
    repeat (rewrite (get_dict _ _ _ E0) in H; cbn [bind ok] in H).
    need_dict H (Report.field "dependencies" (VDict []) data).
    unfold Doctor.deps_table in H.
    need_dict H (Report.field "system" (VDict [])
                   (Report.field "dependencies" (VDict []) data)).
    unfold Doctor.stt_table in H.
    need_dict H (Report.field "engines" (VDict [])
                   (Report.field "dependencies" (VDict []) data)).
    repeat (rewrite (get_dict _ _ _ E) in H; cbn [bind ok] in H).
    need_dict H (Report.field "models" (VDict []) data).
    repeat (rewrite (get_dict _ _ _ E) in H; cbn [bind ok] in H).
    repeat (rewrite (get_dict _ _ _ E4) in H; cbn [bind ok] in H).
    repeat (rewrite (get_dict _ _ _ E3) in H; cbn [bind ok] in H).
    unfold Doctor.piper_status in H.
    need_dict H (Report.field "piper" (VDict [])
                   (Report.field "engines" (VDict [])
                      (Report.field "dependencies" (VDict []) data))).
    unfold Doctor.kokoro_status in H.
    need_dict H (Report.field "kokoro" (VDict [])
                   (Report.field "engines" (VDict [])
                      (Report.field "dependencies" (VDict []) data))).
    unfold Doctor.tts_table in H.
    repeat (rewrite (get_dict _ _ _ E5) in H; cbn [bind ok] in H).
    repeat (rewrite (get_dict _ _ _ E6) in H; cbn [bind ok] in H).
    repeat (rewrite (get_dict _ _ _ E) in H; cbn [bind ok] in H).
    unfold Doctor.playback_status in H.
    need_dict H (Report.field "playback" (VDict []) data).
    assert (Hpid : negb (Py.truthy (Report.field "active" VNone
                                      (Report.field "playback" (VDict []) data)))
                   || Report.has "pid" (Report.field "playback" (VDict []) data) = true).
    { destruct (Py.truthy _); [| reflexivity]. cbn [negb orb].
      destruct (Report.has "pid" (Report.field "playback" (VDict []) data)) eqn:Ep;
        [reflexivity |].
      rewrite (getitem_missing _ _ E7 Ep) in H. discriminate H. }
    assert (Henv : negb (Py.truthy (Report.field "environment" VNone data))
                   || Report.is_dict (Report.field "environment" VNone data) = true).
    { destruct (Py.truthy (Report.field "active" VNone
                             (Report.field "playback" (VDict []) data)));
        [destruct (Py.getitem "pid" (Report.field "playback" (VDict []) data));
         [discriminate H |] |];
        cbn [bind ok] in H; unfold Doctor.services_table in H;
        repeat (rewrite (get_dict _ _ _ E6) in H; cbn [bind ok] in H);
        repeat (rewrite (get_dict _ _ _ E) in H; cbn [bind ok] in H);
        unfold Doctor.env_table in H;
        (destruct (Py.truthy (Report.field "environment" VNone data)); [| reflexivity]);
        (destruct (Report.field "environment" VNone data); try discriminate H);
        reflexivity. }
    unfold Report.doctor, Report.sub.
    rewrite E, E0, Hty, E1, E2, E3, E4, E5, E6, E7, Hpid, Henv. reflexivity.
Qed.

(** The tables are built only for documents of the doctor shape. *)
Lemma build_tables_only_reports data tb :
  Doctor.build_tables container_repr data = ok tb -> Report.doctor data = true.
Proof.
  intros H. pose proof (build_tables_outcome data) as Ho. rewrite H in Ho. exact Ho.
Qed.

Lemma build_tables_errors data e :
  Doctor.build_tables container_repr data = raise e ->
  e = AttributeError \/ e = TypeError
  \/ (e = KeyError "pid"
      /\ Py.truthy (Report.field "active" VNone (Report.sub "playback" data)) = true
      /\ Report.has "pid" (Report.sub "playback" data) = false).
Proof.
  intros H. pose proof (build_tables_outcome data) as Ho. rewrite H in Ho. exact Ho.
Qed.

End DoctorBehaviour.

Section DoctorClaims.
Variable block_width : string -> Z.
Variable container_repr : value -> string.
Variable encodable : string -> bool.

(** C1.  A report with an active playback and no process id, otherwise
    empty: line 78 subscripts [playback] with ["pid"], the one access of
    the script that has no default, and [main] stops with [KeyError]
    before it has printed anything. *)
Theorem active_playback_without_pid_raises out :
  Doctor.main block_width container_repr encodable Samples.active_without_pid out
  = (out, raise (KeyError "pid")).
Proof. reflexivity. Qed.

(** C7.  A document whose kokoro engine is available, runs its server and
    has three voices, and whose playback is active without a process id:
    lines 62-64 compute the status "✓ (server)" and the voice count is 3,
    but line 78 raises [KeyError] before the first [print], so no Kokoro
    row is rendered: nothing is printed at all. *)
Theorem kokoro_row_lost_to_missing_pid out :
  Doctor.kokoro_status (Report.kokoro Samples.kokoro_with_active_playback)
  = ok "✓ (server)"
  /\ Report.field "voices" (VInt 0) (Report.kokoro Samples.kokoro_with_active_playback)
     = VInt 3
  /\ Doctor.build_tables container_repr Samples.kokoro_with_active_playback
     = raise (KeyError "pid")
  /\ Doctor.main block_width container_repr encodable
       Samples.kokoro_with_active_playback out
     = (out, raise (KeyError "pid"))
  /\ printed (Doctor.main block_width container_repr encodable
                Samples.kokoro_with_active_playback) out = [].
Proof.
  split; [reflexivity |]. split; [reflexivity |]. split; [reflexivity |].
  split; [reflexivity |].
  unfold printed. rewrite main_run. cbn [fst]. apply skipn_own_length_nil.
Qed.

(** C9.  In a doctor report the "Kokoro Server" row of the Background
    Services table reads "Running" exactly when the status of the Kokoro
    row of the Text-to-Speech table ends with " (server)". *)
Theorem kokoro_server_rows_agree data :
  Report.doctor data = true ->
  exists tb status voices service,
    Doctor.build_tables container_repr data = ok tb
    /\ nth 1 (PrettyTable.rows (Doctor.the_tts_table tb)) []
       = [VStr "Kokoro"; VStr status; voices]
    /\ nth 1 (PrettyTable.rows (Doctor.the_services_table tb)) []
       = [VStr "Kokoro Server"; VStr service]
    /\ (service = "Running" <-> Py.ends_with " (server)" status = true).
Proof.
  intros H. destruct (build_tables_ok container_repr data H) as (tb & text & Hb & Htts & Hsv).
  exists tb. do 3 eexists. split; [exact Hb |].
  split; [rewrite Htts; reflexivity |]. split; [rewrite Hsv; reflexivity |].
  unfold Doctor.mark.
  destruct (Py.truthy (Report.field "server_running" VNone (Report.kokoro data)));
    destruct (Py.truthy (Report.field "available" VNone (Report.kokoro data)));
    vm_compute; split; intros E; (reflexivity || discriminate E).
Qed.

End DoctorClaims.

(* ===================================================================== *)
(** ** Further properties of the doctor script *)
(* ===================================================================== *)

Section DoctorExtras.
Variable block_width : string -> Z.
Variable container_repr : value -> string.
Variable encodable : string -> bool.

(** [main] finishes without exception exactly when the document has the
    doctor shape and standard output can encode every line of the
    tables. *)
Theorem doctor_renders_exactly_reports data out :
  snd (Doctor.main block_width container_repr encodable data out) = ok tt
  <-> Report.doctor data = true
      /\ forall tb, Doctor.build_tables container_repr data = ok tb ->
                    forallb encodable (Doctor.lines_of block_width container_repr tb)
                    = true.
Proof.
  rewrite main_run. split.
  - destruct (Doctor.build_tables container_repr data) as [e | tb] eqn:Hb;
      [cbn [snd]; discriminate |].
    intros Hrun. split; [exact (build_tables_only_reports container_repr data tb Hb) |].
    intros tb' E. injection E as <-. apply (print_lines_completes encodable _ out), Hrun.
  - intros [H Henc].
    destruct (build_tables_ok container_repr data H) as (tb & _ & Hb & _).
    rewrite Hb. apply print_lines_completes, Henc, Hb.
Qed.

(** A run that fails either stopped while the document was read and the
    tables were built, with standard output left as it was, or stopped at
    the first line that standard output cannot encode, with the lines
    before it written. *)
Theorem doctor_failure_output data out e :
  snd (Doctor.main block_width container_repr encodable data out) = raise e ->
  (Doctor.build_tables container_repr data = raise e
   /\ fst (Doctor.main block_width container_repr encodable data out) = out
   /\ printed (Doctor.main block_width container_repr encodable data) out = [])
  \/ (e = UnicodeEncodeError
      /\ exists tb k,
           Doctor.build_tables container_repr data = ok tb
           /\ k < List.length (Doctor.lines_of block_width container_repr tb)
           /\ forallb encodable
                (firstn k (Doctor.lines_of block_width container_repr tb)) = true
           /\ encodable (nth k (Doctor.lines_of block_width container_repr tb) "")
              = false
           /\ fst (Doctor.main block_width container_repr encodable data out)
              = (out ++ firstn k (Doctor.lines_of block_width container_repr tb))%list).
Proof.
  unfold printed. rewrite main_run.
  destruct (Doctor.build_tables container_repr data) as [e' | tb] eqn:Hb.
  - cbn [fst snd]. intros E. injection E as ->. left.
    split; [reflexivity |]. split; [reflexivity |]. apply skipn_own_length_nil.
  - intros Hrun. right.
    destruct (forallb encodable (Doctor.lines_of block_width container_repr tb)) eqn:Henc.
    + rewrite (print_lines_all encodable _ out Henc) in Hrun. discriminate Hrun.
    + destruct (print_lines_stops encodable _ out Henc) as (k & Hk & Hf & Hn & Hp).
      rewrite Hp in Hrun |- *. cbn [fst snd] in *. injection Hrun as <-.
      split; [reflexivity |]. exists tb, k. repeat split; assumption.
Qed.

(** The one [KeyError] the doctor script can raise is the missing process
    id of an active playback (line 78); it is raised before anything is
    printed. *)
Theorem key_error_only_from_missing_pid data out k :
  snd (Doctor.main block_width container_repr encodable data out) = raise (KeyError k) ->
  k = "pid"
  /\ Py.truthy (Report.field "active" VNone (Report.sub "playback" data)) = true
  /\ Report.has "pid" (Report.sub "playback" data) = false
  /\ fst (Doctor.main block_width container_repr encodable data out) = out.
Proof.
  rewrite main_run.
  destruct (Doctor.build_tables container_repr data) as [e | tb] eqn:Hb.
  - cbn [fst snd]. intros E. injection E as ->.
    destruct (build_tables_errors container_repr data (KeyError k) Hb)
      as [E | [E | (E & Ha & Hp)]]; try discriminate E.
    injection E as ->. auto.
  - intros Hrun. exfalso.
    destruct (forallb encodable (Doctor.lines_of block_width container_repr tb)) eqn:Henc.
    + rewrite (print_lines_all encodable _ out Henc) in Hrun. discriminate Hrun.
    + destruct (print_lines_stops encodable _ out Henc) as (n & _ & _ & _ & Hp).
      rewrite Hp in Hrun. discriminate Hrun.
Qed.

(** A runtime type that is not text stops [main] with [TypeError] (line 16
    for a list or an object, which cannot be hashed, line 18 for the rest,
    which cannot be added to a str), although the label is never shown. *)
Theorem non_text_runtime_type_raises data out :
  Report.is_dict data = true ->
  Report.is_dict (Report.sub "runtime" data) = true ->
  Report.is_str (Report.field "type" (VStr "unknown") (Report.sub "runtime" data)) = false ->
  Doctor.main block_width container_repr encodable data out = (out, raise TypeError).
Proof.
  intros Hd Hr Ht. rewrite main_run. unfold Doctor.build_tables, Report.sub in *.
  run. rewrite (runtime_type_value_not_str _ Ht). reflexivity.
Qed.

(** A "runtime" entry that is present but not an object (null, for one) is
    not taken for a missing one: the first lookup on it raises. *)
Theorem non_mapping_runtime_raises entries v out :
  Py.lookup "runtime" entries = Some v ->
  Report.is_dict v = false ->
  Doctor.main block_width container_repr encodable (VDict entries) out
  = (out, raise AttributeError).
Proof.
  intros Hl Hv. rewrite main_run. unfold Doctor.build_tables.
  cbn [Py.get]. rewrite Hl. cbn [bind ok].
  rewrite (get_not_dict _ _ _ Hv). reflexivity.
Qed.

(** Line 78, case by case: "Stopped" when the playback is not active, the
    process id in the text when it is and the id is there, [KeyError] when
    it is active without an id, [AttributeError] when the playback entry is
    no object. *)
Theorem playback_status_cases playback :
  (Report.is_dict playback = false ->
   Doctor.playback_status container_repr playback = raise AttributeError)
  /\ (Report.is_dict playback = true ->
      Py.truthy (Report.field "active" VNone playback) = false ->
      Doctor.playback_status container_repr playback = ok "Stopped")
  /\ (Report.is_dict playback = true ->
      Py.truthy (Report.field "active" VNone playback) = true ->
      Report.has "pid" playback = true ->
      Doctor.playback_status container_repr playback
      = ok ("Active (PID: "
            ++ Py.str container_repr (Report.field "pid" VNone playback) ++ ")"))
  /\ (Report.is_dict playback = true ->
      Py.truthy (Report.field "active" VNone playback) = true ->
      Report.has "pid" playback = false ->
      Doctor.playback_status container_repr playback = raise (KeyError "pid")).
Proof.
  unfold Doctor.playback_status. repeat split.
  - intros H. rewrite (get_not_dict _ _ _ H). reflexivity.
  - intros H Ha. run. rewrite Ha. reflexivity.
  - intros H Ha Hp. run. rewrite Ha, (getitem_has _ _ Hp). reflexivity.
  - intros H Ha Hp. run. rewrite Ha, (getitem_missing _ _ H Hp). reflexivity.
Qed.

(** [main] reads five keys of the document and nothing else: two objects
    that agree on them are rendered alike, whatever else they hold and in
    whatever order. *)
Theorem doctor_reads_five_keys entries entries' out :
  (forall k, In k ["runtime"; "dependencies"; "models"; "playback"; "environment"] ->
             Py.lookup k entries = Py.lookup k entries') ->
  Doctor.main block_width container_repr encodable (VDict entries) out
  = Doctor.main block_width container_repr encodable (VDict entries') out.
Proof.
  intros H.
  assert (H1 := H "runtime" ltac:(simpl; tauto)).
  assert (H2 := H "dependencies" ltac:(simpl; tauto)).
  assert (H3 := H "models" ltac:(simpl; tauto)).
  assert (H4 := H "playback" ltac:(simpl; tauto)).
  assert (H5 := H "environment" ltac:(simpl; tauto)).
  rewrite !main_run. unfold Doctor.build_tables, Doctor.stt_table.
  cbn [Py.get]. rewrite H1, H2, H3, H4, H5. reflexivity.
Qed.

(** Lines 89-100: no table for an environment that is missing, null or
    empty; one row per entry, in the document's order and without header,
    for a non-empty object; [AttributeError] for any other truthy value. *)
Theorem env_table_cases env_vars :
  (Py.truthy env_vars = false -> Doctor.env_table env_vars = ok None)
  /\ (forall entries,
        env_vars = VDict entries -> entries <> [] ->
        Doctor.env_table env_vars
        = ok (Some (PrettyTable.mk ["VTT_"; "Value"]
                      (map (fun kv : string * value => [VStr (fst kv); snd kv]) entries)
                      false
                      [("Value", PrettyTable.l); ("VTT_", PrettyTable.l);
                       ("VTT_", PrettyTable.c); ("Value", PrettyTable.c)])))
  /\ (Py.truthy env_vars = true -> Report.is_dict env_vars = false ->
      Doctor.env_table env_vars = raise AttributeError).
Proof.
  unfold Doctor.env_table. repeat split.
  - intros H. rewrite H. reflexivity.
  - intros entries -> Hne. destruct entries as [| kv entries]; [congruence |].
    cbn [Py.truthy Doctor.items bind ok]. do 2 f_equal.
    unfold PrettyTable.build. rewrite fold_left_app.
    rewrite <- (map_map (fun kv : string * value => [VStr (fst kv); snd kv])
                  PrettyTable.add_row).
    rewrite fold_add_rows. reflexivity.
  - intros Ht Hd. rewrite Ht. destruct env_vars; try discriminate Hd; reflexivity.
Qed.


End DoctorExtras.

Section DoctorTexts.
Variable block_width : string -> Z.
Variable container_repr : value -> string.
Variable encodable : string -> bool.
(** The labels and marks of the tables are narrow: one column for each of
    their characters. *)
Hypothesis narrow_widths :
  forall s, Py.narrow s = true -> block_width s = Z.of_nat (Py.len s).

(** The Dependencies table as printed: three lines, the names padded to the
    longest one, each followed by its mark. *)
Theorem deps_table_text system :
  Report.is_dict system = true ->
  exists tb,
    Doctor.deps_table system = ok tb
    /\ PrettyTable.get_string block_width container_repr tb
       = Py.join Py.nl
           [" Sox     " ++ Doctor.mark (Report.field "sox" VNone system) ++ " ";
            " afplay  " ++ Doctor.mark (Report.field "afplay" VNone system) ++ " ";
            " say     " ++ Doctor.mark (Report.field "say" VNone system) ++ " "].
Proof.
  intros H. unfold Doctor.deps_table. run. eexists. split; [reflexivity |].
  unfold Doctor.mark.
  destruct (Py.truthy (Report.field "sox" VNone system));
    destruct (Py.truthy (Report.field "afplay" VNone system));
    destruct (Py.truthy (Report.field "say" VNone system));
    (rewrite get_string_narrow; [| exact narrow_widths |]); vm_compute; reflexivity.
Qed.

(** The Background Services table as printed while nothing is played
    back. *)
Theorem services_table_text_when_stopped kokoro :
  Report.is_dict kokoro = true ->
  exists tb,
    Doctor.services_table kokoro "Stopped" = ok tb
    /\ PrettyTable.get_string block_width container_repr tb
       = if Py.truthy (Report.field "server_running" VNone kokoro)
         then Py.join Py.nl [" Playback       Stopped "; " Kokoro Server  Running "]
         else Py.join Py.nl [" Playback       Stopped     ";
                             " Kokoro Server  Not running "].
Proof.
  intros H. unfold Doctor.services_table. run. eexists. split; [reflexivity |].
  destruct (Py.truthy (Report.field "server_running" VNone kokoro));
    (rewrite get_string_narrow; [| exact narrow_widths |]); vm_compute; reflexivity.
Qed.

(** Lines 20-28 and 103: the Runtime table as printed when the three paths
    are one-line texts: the labels padded to "Python", each path flush left
    and padded with blanks to the widest of the three; a missing path is an
    empty cell.  Widths are display widths: a path is followed by as many
    blanks as its own width falls short of the widest one. *)
Theorem runtime_table_text runtime python sox data_dir :
  Report.is_dict runtime = true ->
  Py.str container_repr (Report.field "python" (VStr "") runtime) = python ->
  Py.str container_repr (Report.field "sox" (VStr "") runtime) = sox ->
  Py.str container_repr (Report.field "data_dir" (VStr "") runtime) = data_dir ->
  Py.contains Py.nl python = false ->
  Py.contains Py.nl sox = false ->
  Py.contains Py.nl data_dir = false ->
  exists tb,
    Doctor.runtime_table runtime = ok tb
    /\ PrettyTable.get_string block_width container_repr tb
       = Py.join Py.nl
           [" Python  "
            ++ (python
                ++ PrettyTable.spaces
                     (Z.max (Z.max (Z.max 0 (block_width python)) (block_width sox))
                        (block_width data_dir)
                      - block_width python))
            ++ " ";
            " Sox     "
            ++ (sox
                ++ PrettyTable.spaces
                     (Z.max (Z.max (Z.max 0 (block_width python)) (block_width sox))
                        (block_width data_dir)
                      - block_width sox))
            ++ " ";
            " Data    "
            ++ (data_dir
                ++ PrettyTable.spaces
                     (Z.max (Z.max (Z.max 0 (block_width python)) (block_width sox))
                        (block_width data_dir)
                      - block_width data_dir))
            ++ " "].
Proof.
  intros H Hp Hs Hd Hp1 Hs1 Hd1. unfold Doctor.runtime_table. run.
  eexists. split; [reflexivity |].
  unfold PrettyTable.get_string, PrettyTable.compute_widths, PrettyTable.stringify_row.
  cbn [PrettyTable.build PrettyTable.set_field_names
       PrettyTable.set_align_all PrettyTable.set_header PrettyTable.add_row
       PrettyTable.set_align PrettyTable.new fold_left
       PrettyTable.rows PrettyTable.header PrettyTable.field_names PrettyTable.align
       map app PrettyTable.format_row PrettyTable.widen].
  rewrite Hp, Hs, Hd. cbn [Py.str].
  unfold PrettyTable.width_of, PrettyTable.height_of.
  rewrite (split_lines_single python Hp1), (split_lines_single sox Hs1),
    (split_lines_single data_dir Hd1).
  change (Py.split_lines "Python") with ["Python"].
  change (Py.split_lines "Sox") with ["Sox"].
  change (Py.split_lines "Data") with ["Data"].
  cbn [map list_max fold_right List.length PrettyTable.widest fold_left].
  rewrite !Nat.max_0_r.
  change (Nat.max 1 1) with 1.
  cbn [seq map Py.join PrettyTable.row_line].
  rewrite (split_lines_single python Hp1), (split_lines_single sox Hs1),
    (split_lines_single data_dir Hd1).
  change (Py.split_lines "Python") with ["Python"].
  change (Py.split_lines "Sox") with ["Sox"].
  change (Py.split_lines "Data") with ["Data"].
  cbn [nth]. unfold PrettyTable.justify.
  rewrite !(narrow_widths "Python" eq_refl), !(narrow_widths "Sox" eq_refl),
    !(narrow_widths "Data" eq_refl).
  reflexivity.
Qed.

(** In a document of the doctor shape the Kokoro row of the Text-to-Speech
    table is the engine name, the availability mark followed by " (server)"
    exactly when [server_running] is truthy, and the voice count, 0 when
    missing; the table is printed under its heading.  When the engine is
    available, its server runs and it has 3 voices, the cells read "Kokoro",
    "✓ (server)" and "3" and so does the line of the table. *)
Theorem kokoro_row_shows_server_suffix data :
  Report.doctor data = true ->
  exists tb,
    Doctor.build_tables container_repr data = ok tb
    /\ Doctor.the_tts_table tb
       = PrettyTable.mk ["Engine"; "installed"; "Voices"]
           [[VStr "Piper";
             VStr (Doctor.mark (Report.field "available" VNone (Report.piper data)));
             Report.field "voices" (VInt 0) (Report.piper data)];
            [VStr "Kokoro";
             VStr (Doctor.mark (Report.field "available" VNone (Report.kokoro data))
                   ++ (if Py.truthy (Report.field "server_running" VNone
                                       (Report.kokoro data))
                       then " (server)" else ""));
             Report.field "voices" (VInt 0) (Report.kokoro data)]]
           true
           [("Voices", PrettyTable.c); ("Status", PrettyTable.c);
            ("Engine", PrettyTable.l); ("Engine", PrettyTable.c);
            ("installed", PrettyTable.c); ("Voices", PrettyTable.c)]
    /\ (forall out, exists before after,
          Doctor.main block_width container_repr encodable data out
          = print_lines encodable
              (before
               ++ ["Text-to-Speech:";
                   PrettyTable.get_string block_width container_repr
                     (Doctor.the_tts_table tb)]
               ++ after)%list out)
    /\ (Py.truthy (Report.field "available" VNone (Report.kokoro data)) = true ->
        Py.truthy (Report.field "server_running" VNone (Report.kokoro data)) = true ->
        Report.field "voices" (VInt 0) (Report.kokoro data) = VInt 3 ->
        PrettyTable.format_row container_repr
          (nth 1 (PrettyTable.rows (Doctor.the_tts_table tb)) [])
        = ["Kokoro"; "✓ (server)"; "3"]
        /\ exists w header piper_line,
             (6 <= w)%Z
             /\ PrettyTable.get_string block_width container_repr (Doctor.the_tts_table tb)
                = Py.join Py.nl
                    [header; piper_line;
                     " Kokoro  ✓ (server)  "
                     ++ PrettyTable.justify block_width "3" w PrettyTable.c ++ " "]).
Proof.
  intros H. destruct (build_tables_ok container_repr data H) as (tb & text & Hb & Htts & _).
  exists tb. split; [exact Hb |]. split; [exact Htts |]. split.
  - intros out. rewrite main_run, Hb. unfold Doctor.lines_of.
    exists (["Runtime:"; PrettyTable.get_string block_width container_repr
                           (Doctor.the_runtime_table tb)]
            ++ match Doctor.the_env_table tb with
               | Some env => [""; "Env Variables:";
                              PrettyTable.get_string block_width container_repr env]
               | None => []
               end
            ++ [""; "Dependencies:";
                PrettyTable.get_string block_width container_repr (Doctor.the_deps_table tb);
                ""; "Speech-to-Text:";
                PrettyTable.get_string block_width container_repr (Doctor.the_stt_table tb);
                ""])%list.
    exists [""; "Background Services:";
            PrettyTable.get_string block_width container_repr
              (Doctor.the_services_table tb)].
    unfold ok. cbv beta iota.
    destruct (Doctor.the_env_table tb); cbn [app]; reflexivity.
  - intros Ha Hs Hv.
    assert (Hm : Doctor.mark (Report.field "available" VNone (Report.kokoro data))
                 = Doctor.check)
      by (unfold Doctor.mark; rewrite Ha; reflexivity).
    rewrite Htts. unfold Report.tts_rows. rewrite Hs, Hv, Hm.
    change (Doctor.check ++ " (server)") with "✓ (server)".
    split; [reflexivity |]. apply kokoro_line, narrow_widths.
Qed.

End DoctorTexts.

(** *** The storage view *)

Lemma filter_exc_dicts keep f items :
  (forall m, Report.is_dict m = true -> keep m = ok (f m)) ->
  forallb Report.is_dict items = true ->
  Py.filter_exc keep items = ok (filter f items).
Proof.
  intros Hk. induction items as [| m items IH]; intros Hd; [reflexivity |].
  cbn [forallb] in Hd. apply andb_prop in Hd. destruct Hd as [Hm Hd].
  cbn [Py.filter_exc filter]. rewrite (Hk m Hm), (IH Hd). cbn [bind ok].
  destruct (f m); reflexivity.
Qed.

Lemma map_exc_dicts {A} (g : value -> exc A) f items :
  (forall m, Report.is_dict m = true -> g m = ok (f m)) ->
  forallb Report.is_dict items = true ->
  Py.map_exc g items = ok (map f items).
Proof.
  intros Hg. induction items as [| m items IH]; intros Hd; [reflexivity |].
  cbn [forallb] in Hd. apply andb_prop in Hd. destruct Hd as [Hm Hd].
  cbn [Py.map_exc map]. rewrite (Hg m Hm), (IH Hd). reflexivity.
Qed.

Lemma filter_keeps_dicts f items :
  forallb Report.is_dict items = true ->
  forallb Report.is_dict (filter f items) = true.
Proof.
  induction items as [| m items IH]; intros Hd; [reflexivity |].
  cbn [forallb] in Hd. apply andb_prop in Hd. destruct Hd as [Hm Hd].
  cbn [filter]. destruct (f m); cbn [forallb]; rewrite ?Hm; auto.
Qed.

Lemma model_downloaded_dict m :
  Report.is_dict m = true -> Storage.model_downloaded m = ok (Report.model_listed m).
Proof. intros H. unfold Storage.model_downloaded. run. reflexivity. Qed.

Lemma voice_downloaded_dict v :
  Report.is_dict v = true -> Storage.voice_downloaded v = ok (Report.voice_listed v).
Proof.
  intros H. unfold Storage.voice_downloaded, Report.voice_listed. run.
  destruct (Py.truthy _); [run |]; reflexivity.
Qed.

Lemma model_row_dict m :
  Report.is_dict m = true -> Storage.model_row m = ok (Report.model_cells m).
Proof. intros H. unfold Storage.model_row. run. reflexivity. Qed.

Lemma voice_row_dict v :
  Report.is_dict v = true -> Storage.voice_row v = ok (Report.voice_cells v).
Proof. intros H. unfold Storage.voice_row. run. reflexivity. Qed.

Lemma dict_list_elements v :
  Report.is_dict_list v = true ->
  Py.iter v = ok (Report.elements v)
  /\ forallb Report.is_dict (Report.elements v) = true.
Proof. destruct v; simpl; intros H; try discriminate. split; [reflexivity | exact H]. Qed.


Lemma filter_exc_non_dict keep items :
  (forall m, Report.is_dict m = false -> keep m = raise AttributeError) ->
  (forall m, Report.is_dict m = true -> exists b, keep m = ok b) ->
  forallb Report.is_dict items = false ->
  Py.filter_exc keep items = raise AttributeError.
Proof.
  intros Hbad Hgood. induction items as [| m items IH]; cbn [forallb]; [discriminate |].
  intros H. cbn [Py.filter_exc].
  destruct (Report.is_dict m) eqn:Em.
  - destruct (Hgood m Em) as [b ->]. cbn [bind ok]. rewrite (IH H). reflexivity.
  - rewrite (Hbad m Em). reflexivity.
Qed.

Lemma path_or_na_default item :
  Report.has "path" item = false \/ Report.field "path" (VStr "N/A") item = VStr "" ->
  Report.path_or_na item = VStr "N/A".
Proof.
  unfold Report.path_or_na. intros [H | H].
  - destruct item; try reflexivity. cbn [Report.has Report.field] in *.
    destruct (Py.lookup "path" entries); [discriminate H | reflexivity].
  - rewrite H. reflexivity.
Qed.

Lemma total_table_built grand_total :
  Storage.total_table grand_total
  = PrettyTable.mk ["Total Storage Used"; "Size"] [[VStr ""; grand_total]] false
      [("Size", PrettyTable.r); ("Total Storage Used", PrettyTable.l);
       ("Size", PrettyTable.l); ("Total Storage Used", PrettyTable.c);
       ("Size", PrettyTable.c)].
Proof. reflexivity. Qed.

Section StorageFacts.
Variable block_width : string -> Z.
Variable container_repr : value -> string.

Lemma dependencies_lines_ok data :
Report.storage data = true ->
exists body,
  Storage.dependencies_lines block_width container_repr data = ok ["Dependencies"; body; ""].
Proof.
intros H. unfold Report.storage in H. shape H.
unfold Storage.dependencies_lines. run. eexists. reflexivity.
Qed.

Lemma directories_lines_ok data :
Report.storage data = true ->
exists body,
  Storage.directories_lines block_width container_repr data
  = ok ["Storage Directories"; body; ""].
Proof.
intros H. unfold Report.storage in H. shape H.
unfold Storage.directories_lines. run. eexists. reflexivity.
Qed.

Lemma downloaded_models_ok data :
Report.storage data = true ->
Storage.downloaded_models data
= ok (filter Report.model_listed (Report.model_items data))
/\ forallb Report.is_dict (Report.model_items data) = true.
Proof.
intros H. unfold Report.storage in H. shape H.
destruct (dict_list_elements _ Hs2) as [Hi Hd].
unfold Storage.downloaded_models, Report.model_items, Report.sub in *. run. rewrite Hi. cbn [bind ok].
split; [| exact Hd].
apply filter_exc_dicts; [apply model_downloaded_dict | exact Hd].
Qed.

Lemma downloaded_voices_ok data :
Report.storage data = true ->
Storage.downloaded_voices data
= ok (filter Report.voice_listed (Report.voice_items data))
/\ forallb Report.is_dict (Report.voice_items data) = true.
Proof.
intros H. unfold Report.storage in H. shape H.
destruct (dict_list_elements _ Hs0) as [Hi Hd].
unfold Storage.downloaded_voices, Report.voice_items, Report.sub in *. run. rewrite Hi. cbn [bind ok].
split; [| exact Hd].
apply filter_exc_dicts; [apply voice_downloaded_dict | exact Hd].
Qed.

Lemma total_lines_ok data :
Report.storage data = true ->
Storage.total_lines block_width container_repr data
= ok [PrettyTable.get_string block_width container_repr
        (Storage.total_table
           (Report.field "grand_total_human" (VStr "0 B") (Report.sub "totals" data)))].
Proof.
intros H. unfold Report.storage in H. shape H.
unfold Storage.total_lines. run. reflexivity.
Qed.

End StorageFacts.

Section StorageSections.
Variable block_width : string -> Z.
Variable container_repr : value -> string.

(** The body of the STT Models block: the fallback line when no model is
    listed, else the table of the listed models after the replacement of
    line 71. *)
Lemma models_lines_ok data :
Report.storage data = true ->
Storage.models_lines block_width container_repr data
= ok ["STT Models";
      match filter Report.model_listed (Report.model_items data) with
      | [] => "  (no models downloaded)"
      | listed =>
          Storage.replace_all [("Alias", "  "); ("Size", ""); ("Path", "")]
            (PrettyTable.get_string block_width container_repr
               (PrettyTable.mk ["Alias"; "Size"; "Path"]
                  (map Report.model_cells listed) false
                  [("Size", PrettyTable.r); ("Alias", PrettyTable.l);
                   ("Size", PrettyTable.l); ("Path", PrettyTable.l);
                   ("Alias", PrettyTable.c); ("Size", PrettyTable.c);
                   ("Path", PrettyTable.c)]))
      end;
      ""].
Proof.
intros H. destruct (downloaded_models_ok data H) as [Hd Hall].
unfold Storage.models_lines. rewrite Hd. cbn [bind ok].
pose proof (filter_keeps_dicts Report.model_listed _ Hall) as Hkept.
destruct (filter Report.model_listed (Report.model_items data)) as [| m listed];
  [reflexivity |].
rewrite (map_exc_dicts _ Report.model_cells _ model_row_dict Hkept).
cbn [bind ok]. rewrite models_table_built. reflexivity.
Qed.

Lemma voices_lines_ok data :
Report.storage data = true ->
Storage.voices_lines block_width container_repr data
= ok ["TTS Voices";
      match filter Report.voice_listed (Report.voice_items data) with
      | [] => "  (no voices downloaded)"
      | listed =>
          Storage.replace_all
            [("Alias", "  "); ("Provider", ""); ("Size", ""); ("Path", "")]
            (PrettyTable.get_string block_width container_repr
               (PrettyTable.mk ["Alias"; "Provider"; "Size"; "Path"]
                  (map Report.voice_cells listed) false
                  [("Size", PrettyTable.r); ("Provider", PrettyTable.l);
                   ("Alias", PrettyTable.l); ("Provider", PrettyTable.l);
                   ("Size", PrettyTable.l); ("Path", PrettyTable.l);
                   ("Alias", PrettyTable.c); ("Provider", PrettyTable.c);
                   ("Size", PrettyTable.c); ("Path", PrettyTable.c)]))
      end;
      ""].
Proof.
intros H. destruct (downloaded_voices_ok data H) as [Hd Hall].
unfold Storage.voices_lines. rewrite Hd. cbn [bind ok].
pose proof (filter_keeps_dicts Report.voice_listed _ Hall) as Hkept.
destruct (filter Report.voice_listed (Report.voice_items data)) as [| v listed];
  [reflexivity |].
rewrite (map_exc_dicts _ Report.voice_cells _ voice_row_dict Hkept).
cbn [bind ok]. rewrite voices_table_built. reflexivity.
Qed.

(** A table of listed items is never mistaken for a fallback line: its text
  ends in the padding blank of the last column, also after the labels were
  replaced. *)
Lemma models_text_ends_with_blank listed al :
listed <> [] ->
Py.ends_with " "
  (Storage.replace_all [("Alias", "  "); ("Size", ""); ("Path", "")]
     (PrettyTable.get_string block_width container_repr
        (PrettyTable.mk ["Alias"; "Size"; "Path"]
           (map Report.model_cells listed) false al))) = true.
Proof.
intros Hne. apply replace_all_ends_with_blank.
- repeat constructor; cbn; discriminate.
- apply get_string_ends_with_blank; cbn [PrettyTable.header PrettyTable.field_names
                                          PrettyTable.rows];
    [reflexivity | discriminate | destruct listed; [congruence | discriminate] |].
  apply Forall_forall. intros row Hin. apply in_map_iff in Hin.
  destruct Hin as (m & <- & _). discriminate.
Qed.

Lemma voices_text_ends_with_blank listed al :
listed <> [] ->
Py.ends_with " "
  (Storage.replace_all
     [("Alias", "  "); ("Provider", ""); ("Size", ""); ("Path", "")]
     (PrettyTable.get_string block_width container_repr
        (PrettyTable.mk ["Alias"; "Provider"; "Size"; "Path"]
           (map Report.voice_cells listed) false al))) = true.
Proof.
intros Hne. apply replace_all_ends_with_blank.
- repeat constructor; cbn; discriminate.
- apply get_string_ends_with_blank; cbn [PrettyTable.header PrettyTable.field_names
                                          PrettyTable.rows];
    [reflexivity | discriminate | destruct listed; [congruence | discriminate] |].
  apply Forall_forall. intros row Hin. apply in_map_iff in Hin.
  destruct Hin as (v & <- & _). discriminate.
Qed.

(** The lines of a storage report, block after block. *)
Lemma format_storage_table_ok data :
Report.storage data = true ->
exists deps dirs models voices,
  Storage.models_lines block_width container_repr data = ok ["STT Models"; models; ""]
  /\ Storage.voices_lines block_width container_repr data = ok ["TTS Voices"; voices; ""]
  /\ Storage.format_storage_table block_width container_repr data
     = ok (Py.join Py.nl
             [Storage.title; Storage.separator;
              "Dependencies"; deps; "";
              "Storage Directories"; dirs; "";
              "STT Models"; models; "";
              "TTS Voices"; voices; "";
              PrettyTable.get_string block_width container_repr
                (PrettyTable.mk ["Total Storage Used"; "Size"]
                   [[VStr "";
                     Report.field "grand_total_human" (VStr "0 B")
                       (Report.sub "totals" data)]]
                   false
                   [("Size", PrettyTable.r); ("Total Storage Used", PrettyTable.l);
                    ("Size", PrettyTable.l); ("Total Storage Used", PrettyTable.c);
                    ("Size", PrettyTable.c)])]).
Proof.
intros H.
destruct (dependencies_lines_ok block_width container_repr data H) as [deps Hdeps].
destruct (directories_lines_ok block_width container_repr data H) as [dirs Hdirs].
pose proof (models_lines_ok data H) as Hm.
pose proof (voices_lines_ok data H) as Hv.
pose proof (total_lines_ok block_width container_repr data H) as Ht.
do 4 eexists. split; [exact Hm |]. split; [exact Hv |].
unfold Storage.format_storage_table.
rewrite Hdeps, Hdirs, Hm, Hv, Ht. reflexivity.
Qed.

End StorageSections.

Section StorageClaims.
Variable block_width : string -> Z.
Variable container_repr : value -> string.
Variable encodable : string -> bool.

Lemma script_run data out :
Storage.script block_width container_repr encodable data out
= match Storage.format_storage_table block_width container_repr data with
  | inl e => (out, inl e)
  | inr text => print_lines encodable [text] out
  end.
Proof.
unfold Storage.script, pbind, lift, print_lines, print.
destruct (Storage.format_storage_table block_width container_repr data);
  [reflexivity |].
destruct (encodable s); reflexivity.
Qed.

(** C4, as the script has it.  In a storage report the TTS Voices block is
  its heading, one body and a blank line, and it is part of the text
  returned.  The voices it lists are the items whose "downloaded" flag is
  truthy and whose provider is not "system", in their order, one row of
  alias, provider, size and path each.  The body is the line
  "  (no voices downloaded)", with its two leading blanks, exactly when no
  item passes both tests, in particular when no item is downloaded.
  Otherwise it is the text of the header-less table of the listed rows
  after the replacement of line 92; when that text holds none of the four
  labels the body is the table text itself and every line of every cell
  of every listed voice occurs in it. *)
Theorem tts_voices_section_lists_downloaded data :
Report.storage data = true ->
exists body,
  Storage.voices_lines block_width container_repr data = ok ["TTS Voices"; body; ""]
  /\ (exists before after,
        Storage.format_storage_table block_width container_repr data
        = ok (Py.join Py.nl (before ++ ["TTS Voices"; body; ""] ++ after)%list))
  /\ Storage.downloaded_voices data
     = ok (filter
             (fun v => Py.truthy (Report.field "downloaded" VNone v)
                       && Py.ne_str (Report.field "provider" VNone v) "system")
             (Report.voice_items data))
  /\ (body = "  (no voices downloaded)" <->
      forall v, In v (Report.voice_items data) ->
                Py.truthy (Report.field "downloaded" VNone v)
                && Py.ne_str (Report.field "provider" VNone v) "system" = false)
  /\ ((forall v, In v (Report.voice_items data) ->
                 Py.truthy (Report.field "downloaded" VNone v) = false) ->
      body = "  (no voices downloaded)")
  /\ (forall text,
        text
        = PrettyTable.get_string block_width container_repr
            (PrettyTable.mk ["Alias"; "Provider"; "Size"; "Path"]
               (map (fun v => [Report.field "alias" (VStr "") v;
                               Report.field "provider" (VStr "") v;
                               Report.field "size_human" (VStr "0 B") v;
                               Report.path_or_na v])
                    (filter Report.voice_listed (Report.voice_items data)))
               false
               [("Size", PrettyTable.r); ("Provider", PrettyTable.l);
                ("Alias", PrettyTable.l); ("Provider", PrettyTable.l);
                ("Size", PrettyTable.l); ("Path", PrettyTable.l);
                ("Alias", PrettyTable.c); ("Provider", PrettyTable.c);
                ("Size", PrettyTable.c); ("Path", PrettyTable.c)]) ->
        filter Report.voice_listed (Report.voice_items data) <> [] ->
        body
        = Storage.replace_all
            [("Alias", "  "); ("Provider", ""); ("Size", ""); ("Path", "")] text
        /\ (Py.contains "Alias" text = false ->
            Py.contains "Provider" text = false ->
            Py.contains "Size" text = false ->
            Py.contains "Path" text = false ->
            body = text
            /\ forall v cell line,
                 In v (filter Report.voice_listed (Report.voice_items data)) ->
                 In cell (map (Py.str container_repr)
                            [Report.field "alias" (VStr "") v;
                             Report.field "provider" (VStr "") v;
                             Report.field "size_human" (VStr "0 B") v;
                             Report.path_or_na v]) ->
                 In line (Py.split_lines cell) ->
                 Py.contains line body = true)).
Proof.
intros H.
destruct (format_storage_table_ok block_width container_repr data H)
  as (deps & dirs & models & voices & _ & Hv & Hf).
pose proof (voices_lines_ok block_width container_repr data H) as Hbody.
rewrite Hv in Hbody. injection Hbody as Hbody.
assert (Hiff : voices = "  (no voices downloaded)" <->
               filter Report.voice_listed (Report.voice_items data) = []).
{ rewrite Hbody.
  destruct (filter Report.voice_listed (Report.voice_items data))
    as [| v listed] eqn:E.
  - split; reflexivity.
  - split; [| discriminate]. intros Hfall.
    assert (Hb : Py.ends_with " " "  (no voices downloaded)" = true).
    { rewrite <- Hfall.
      exact (voices_text_ends_with_blank block_width container_repr (v :: listed) _
               ltac:(discriminate)). }
    vm_compute in Hb. discriminate Hb. }
exists voices. split; [exact Hv |]. split.
{ exists [Storage.title; Storage.separator; "Dependencies"; deps; "";
          "Storage Directories"; dirs; ""; "STT Models"; models; ""].
  eexists. rewrite Hf. cbn [app]. reflexivity. }
split; [apply downloaded_voices_ok, H |]. split; [| split].
- rewrite Hiff. apply (filter_empty Report.voice_listed).
- intros Hnone. apply Hiff, (filter_empty Report.voice_listed).
  intros v Hin. unfold Report.voice_listed. rewrite (Hnone v Hin). reflexivity.
- intros text Htext Hne.
  assert (Hrep : voices
                 = Storage.replace_all
                     [("Alias", "  "); ("Provider", ""); ("Size", ""); ("Path", "")]
                     text).
  { rewrite Hbody, Htext.
    destruct (filter Report.voice_listed (Report.voice_items data));
      [congruence | reflexivity]. }
  split; [exact Hrep |]. intros Ha Hp Hs Hpa.
  assert (Hsame : voices = text).
  { rewrite Hrep. apply replace_all_absent. repeat constructor; assumption. }
  split; [exact Hsame |]. intros v cell line Hv' Hcell Hline.
  rewrite Hsame, Htext.
  apply (get_string_shows block_width container_repr _
           [Report.field "alias" (VStr "") v; Report.field "provider" (VStr "") v;
            Report.field "size_human" (VStr "0 B") v; Report.path_or_na v] cell line).
  + cbn [PrettyTable.rows]. apply in_map_iff. exists v. split; [reflexivity | exact Hv'].
  + reflexivity.
  + exact Hcell.
  + exact Hline.
Qed.

End StorageClaims.

Section StorageSkeleton.
Variable block_width : string -> Z.
Variable container_repr : value -> string.
Variable encodable : string -> bool.

(** C10, as the script has it.  For a storage report, however sparse, the
  text returned is, in this order: the title line after a blank line, the
  rule of 60 "=", and the blocks "Dependencies", "Storage Directories",
  "STT Models" and "TTS Voices", each a heading, a body and a blank line,
  then the text of the total table: a header-less table of one row, an
  empty cell and [totals.grand_total_human], "0 B" when missing, every
  line of which occurs in that text. *)
Theorem storage_skeleton data :
Report.storage data = true ->
exists deps dirs models voices total,
  Storage.format_storage_table block_width container_repr data
  = ok (Py.join Py.nl
          [Py.nl ++ "VTT Storage Usage"; Py.repeat_str "=" 60 ++ Py.nl;
           "Dependencies"; deps; "";
           "Storage Directories"; dirs; "";
           "STT Models"; models; "";
           "TTS Voices"; voices; "";
           total])
  /\ total
     = PrettyTable.get_string block_width container_repr
         (PrettyTable.mk ["Total Storage Used"; "Size"]
            [[VStr "";
              Report.field "grand_total_human" (VStr "0 B") (Report.sub "totals" data)]]
            false
            [("Size", PrettyTable.r); ("Total Storage Used", PrettyTable.l);
             ("Size", PrettyTable.l); ("Total Storage Used", PrettyTable.c);
             ("Size", PrettyTable.c)])
  /\ (forall line,
        In line
          (Py.split_lines
             (Py.str container_repr
                (Report.field "grand_total_human" (VStr "0 B")
                   (Report.sub "totals" data)))) ->
        Py.contains line total = true)
  /\ (Report.has "totals" data = false
      \/ Report.has "grand_total_human" (Report.sub "totals" data) = false ->
      Report.field "grand_total_human" (VStr "0 B") (Report.sub "totals" data)
      = VStr "0 B"
      /\ Py.contains "0 B" total = true).
Proof.
intros H.
destruct (format_storage_table_ok block_width container_repr data H)
  as (deps & dirs & models & voices & _ & _ & Hf).
exists deps, dirs, models, voices. eexists. split; [exact Hf |].
split; [reflexivity |].
assert (Hshow : forall line,
          In line
            (Py.split_lines
               (Py.str container_repr
                  (Report.field "grand_total_human" (VStr "0 B")
                     (Report.sub "totals" data)))) ->
          Py.contains line
            (PrettyTable.get_string block_width container_repr
               (PrettyTable.mk ["Total Storage Used"; "Size"]
                  [[VStr "";
                    Report.field "grand_total_human" (VStr "0 B")
                      (Report.sub "totals" data)]]
                  false
                  [("Size", PrettyTable.r); ("Total Storage Used", PrettyTable.l);
                   ("Size", PrettyTable.l); ("Total Storage Used", PrettyTable.c);
                   ("Size", PrettyTable.c)])) = true).
{ intros line Hline.
  apply (get_string_shows block_width container_repr _
           [VStr "";
            Report.field "grand_total_human" (VStr "0 B") (Report.sub "totals" data)]
           (Py.str container_repr
              (Report.field "grand_total_human" (VStr "0 B")
                 (Report.sub "totals" data)))
           line).
  - left. reflexivity.
  - reflexivity.
  - right. left. reflexivity.
  - exact Hline. }
split; [exact Hshow |].
intros Hno.
assert (Hdef : Report.field "grand_total_human" (VStr "0 B") (Report.sub "totals" data)
               = VStr "0 B").
{ destruct Hno as [Hno | Hno].
  - unfold Report.sub. destruct data; try reflexivity.
    cbn [Report.has Report.field] in *.
    destruct (Py.lookup "totals" entries); [discriminate Hno | reflexivity].
  - destruct (Report.sub "totals" data); try reflexivity.
    cbn [Report.has Report.field] in *.
    destruct (Py.lookup "grand_total_human" entries); [discriminate Hno | reflexivity]. }
split; [exact Hdef |]. apply Hshow. rewrite Hdef. left. reflexivity.
Qed.

(** C2.  A top-level value that is not an object stops both scripts at
  their first lookup with [AttributeError]: nothing is printed, no text is
  returned, and the process exits with a non-zero status. *)
Theorem non_object_input_rejected data out :
Report.is_dict data = false ->
Doctor.main block_width container_repr encodable data out = (out, raise AttributeError)
/\ printed (Doctor.main block_width container_repr encodable data) out = []
/\ Storage.format_storage_table block_width container_repr data = raise AttributeError
/\ Storage.script block_width container_repr encodable data out
   = (out, raise AttributeError)
/\ printed (Storage.script block_width container_repr encodable data) out = []
/\ exit_status (snd (Doctor.main block_width container_repr encodable data out)) = 1%Z
/\ exit_status (snd (Storage.script block_width container_repr encodable data out))
   = 1%Z.
Proof.
intros H.
assert (Hd : Doctor.build_tables container_repr data = raise AttributeError)
  by (destruct data; try discriminate H; reflexivity).
assert (Hs : Storage.format_storage_table block_width container_repr data
             = raise AttributeError)
  by (destruct data; try discriminate H; reflexivity).
pose proof (skipn_own_length_nil out) as Hp.
unfold printed. rewrite main_run, script_run, Hd, Hs. unfold raise. cbn [fst snd].
repeat split; try reflexivity; exact Hp.
Qed.

(** In a storage report the STT Models block is its heading, one body and
  a blank line, and it is part of the text returned.  The models it lists
  are the items whose "downloaded" flag is truthy, in their order, one row
  of alias, size and path each, the path reading "N/A" when it is missing
  or empty.  The body is the line "  (no models downloaded)" exactly when
  no item has a truthy flag; otherwise it is the text of the header-less
  table of the listed rows after the replacement of line 71, and when that
  text holds none of the three labels the body is the table text itself
  and every line of every cell of every listed model occurs in it. *)
Theorem stt_models_section_lists_downloaded data :
Report.storage data = true ->
exists body,
  Storage.models_lines block_width container_repr data = ok ["STT Models"; body; ""]
  /\ (exists before after,
        Storage.format_storage_table block_width container_repr data
        = ok (Py.join Py.nl (before ++ ["STT Models"; body; ""] ++ after)%list))
  /\ Storage.downloaded_models data
     = ok (filter (fun m => Py.truthy (Report.field "downloaded" VNone m))
             (Report.model_items data))
  /\ (body = "  (no models downloaded)" <->
      forall m, In m (Report.model_items data) ->
                Py.truthy (Report.field "downloaded" VNone m) = false)
  /\ (forall text,
        text
        = PrettyTable.get_string block_width container_repr
            (PrettyTable.mk ["Alias"; "Size"; "Path"]
               (map (fun m => [Report.field "alias" (VStr "") m;
                               Report.field "size_human" (VStr "0 B") m;
                               Report.path_or_na m])
                    (filter Report.model_listed (Report.model_items data)))
               false
               [("Size", PrettyTable.r); ("Alias", PrettyTable.l);
                ("Size", PrettyTable.l); ("Path", PrettyTable.l);
                ("Alias", PrettyTable.c); ("Size", PrettyTable.c);
                ("Path", PrettyTable.c)]) ->
        filter Report.model_listed (Report.model_items data) <> [] ->
        body
        = Storage.replace_all [("Alias", "  "); ("Size", ""); ("Path", "")] text
        /\ (Py.contains "Alias" text = false ->
            Py.contains "Size" text = false ->
            Py.contains "Path" text = false ->
            body = text
            /\ forall m cell line,
                 In m (filter Report.model_listed (Report.model_items data)) ->
                 In cell (map (Py.str container_repr)
                            [Report.field "alias" (VStr "") m;
                             Report.field "size_human" (VStr "0 B") m;
                             Report.path_or_na m]) ->
                 In line (Py.split_lines cell) ->
                 Py.contains line body = true))
  /\ (forall m,
        Report.has "path" m = false
        \/ Report.field "path" (VStr "N/A") m = VStr "" ->
        Report.path_or_na m = VStr "N/A").
Proof.
intros H.
destruct (format_storage_table_ok block_width container_repr data H)
  as (deps & dirs & models & voices & Hm & _ & Hf).
pose proof (models_lines_ok block_width container_repr data H) as Hbody.
rewrite Hm in Hbody. injection Hbody as Hbody.
exists models. split; [exact Hm |]. split.
{ exists [Storage.title; Storage.separator; "Dependencies"; deps; "";
          "Storage Directories"; dirs; ""].
  eexists. rewrite Hf. cbn [app]. reflexivity. }
split; [apply downloaded_models_ok, H |]. split; [| split].
- rewrite <- (filter_empty Report.model_listed). rewrite Hbody.
  destruct (filter Report.model_listed (Report.model_items data))
    as [| m listed] eqn:E.
  + split; reflexivity.
  + split; [| discriminate]. intros Hfall.
    assert (Hb : Py.ends_with " " "  (no models downloaded)" = true).
    { rewrite <- Hfall.
      exact (models_text_ends_with_blank block_width container_repr (m :: listed) _
               ltac:(discriminate)). }
    vm_compute in Hb. discriminate Hb.
- intros text Htext Hne.
  assert (Hrep : models
                 = Storage.replace_all [("Alias", "  "); ("Size", ""); ("Path", "")]
                     text).
  { rewrite Hbody, Htext.
    destruct (filter Report.model_listed (Report.model_items data));
      [congruence | reflexivity]. }
  split; [exact Hrep |]. intros Ha Hs Hpa.
  assert (Hsame : models = text).
  { rewrite Hrep. apply replace_all_absent. repeat constructor; assumption. }
  split; [exact Hsame |]. intros m cell line Hm' Hcell Hline.
  rewrite Hsame, Htext.
  apply (get_string_shows block_width container_repr _
           [Report.field "alias" (VStr "") m;
            Report.field "size_human" (VStr "0 B") m; Report.path_or_na m] cell line).
  + cbn [PrettyTable.rows]. apply in_map_iff. exists m. split; [reflexivity | exact Hm'].
  + reflexivity.
  + exact Hcell.
  + exact Hline.
- intros m Hp. apply path_or_na_default, Hp.
Qed.

End StorageSkeleton.

(* ===================================================================== *)
(** ** Further properties of the storage script *)
(* ===================================================================== *)

Section StorageExtras.
Variable block_width : string -> Z.
Variable container_repr : value -> string.

(** [format_storage_table] reads five keys of the document and nothing
    else: two objects that agree on them give the same text or the same
    exception. *)
Theorem storage_reads_five_keys entries entries' :
  (forall k, In k ["dependencies"; "storage"; "models"; "voices"; "totals"] ->
             Py.lookup k entries = Py.lookup k entries') ->
  Storage.format_storage_table block_width container_repr (VDict entries)
  = Storage.format_storage_table block_width container_repr (VDict entries').
Proof.
  intros H.
  assert (H1 := H "dependencies" ltac:(simpl; tauto)).
  assert (H2 := H "storage" ltac:(simpl; tauto)).
  assert (H3 := H "models" ltac:(simpl; tauto)).
  assert (H4 := H "voices" ltac:(simpl; tauto)).
  assert (H5 := H "totals" ltac:(simpl; tauto)).
  unfold Storage.format_storage_table, Storage.dependencies_lines,
    Storage.directories_lines, Storage.models_lines, Storage.voices_lines,
    Storage.total_lines, Storage.downloaded_models, Storage.downloaded_voices.
  cbn [Py.get]. rewrite H1, H2, H3, H4, H5. reflexivity.
Qed.

(** A "dependencies" entry that is present but not an object (null, a
    number) is not taken for a missing one: line 21 raises on it and no text
    is returned. *)
Theorem non_mapping_dependencies_raises entries v :
  Py.lookup "dependencies" entries = Some v ->
  Report.is_dict v = false ->
  Storage.format_storage_table block_width container_repr (VDict entries) = raise AttributeError.
Proof.
  intros Hl Hv. unfold Storage.format_storage_table, Storage.dependencies_lines.
  cbn [Py.get]. rewrite Hl. cbn [bind ok Py.get_in].
  rewrite (get_not_dict _ _ _ Hv). reflexivity.
Qed.

(** Lines 56-58 on an object whose "models" is an object: the candidates
    are what iterating "items" yields.  An "items" that cannot be iterated
    (null, a number, a boolean) raises [TypeError]; a candidate that is not
    an object raises [AttributeError], so does every non-empty text or
    object given for "items" (its characters or keys are text); when all
    candidates are objects, those with a truthy "downloaded" are kept in
    order. *)
Theorem downloaded_models_cases data :
  Report.is_dict data = true ->
  Report.is_dict (Report.sub "models" data) = true ->
  (Py.iter (Report.field "items" (VList []) (Report.sub "models" data)) = raise TypeError ->
   Storage.downloaded_models data = raise TypeError)
  /\ (forall candidates,
        Py.iter (Report.field "items" (VList []) (Report.sub "models" data))
        = ok candidates ->
        (forallb Report.is_dict candidates = false ->
         Storage.downloaded_models data = raise AttributeError)
        /\ (forallb Report.is_dict candidates = true ->
            Storage.downloaded_models data = ok (filter Report.model_listed candidates)))
  /\ (forall ch s,
        Report.field "items" (VList []) (Report.sub "models" data) = VStr (String ch s) ->
        Storage.downloaded_models data = raise AttributeError)
  /\ (forall kv entries,
        Report.field "items" (VList []) (Report.sub "models" data) = VDict (kv :: entries) ->
        Storage.downloaded_models data = raise AttributeError).
Proof.
  intros Hd Hm. unfold Storage.downloaded_models, Report.sub in *. run.
  assert (Hbad : forall candidates,
             forallb Report.is_dict candidates = false ->
             Py.filter_exc Storage.model_downloaded candidates = raise AttributeError).
  { intros candidates. apply filter_exc_non_dict.
    - intros m Em. unfold Storage.model_downloaded.
      rewrite (get_not_dict _ _ _ Em). reflexivity.
    - intros m Em. rewrite (model_downloaded_dict m Em). eauto. }
  split; [intros ->; reflexivity |]. split; [| split].
  - intros candidates ->. cbn [bind ok]. split.
    + apply Hbad.
    + apply filter_exc_dicts. apply model_downloaded_dict.
  - intros ch s ->. cbn [Py.iter bind ok]. apply Hbad.
    pose proof (chars_not_empty ch s) as Hne.
    destruct (Py.chars (String ch s)); [congruence | reflexivity].
  - intros kv entries ->. cbn [Py.iter bind ok]. apply Hbad. reflexivity.
Qed.

(** Lines 97-105: the closing block is one line, three blanks, the grand
    total as given (here a one-line text; "0 B" when missing) and a blank:
    the field name "Total Storage Used" serves as a column name only and is
    not printed.  The total is flush right in a column of its own display
    width, so blanks come before it only when that width is negative, as it
    is for a text with a control character. *)
Theorem total_line_text data total :
  block_width "" = 0%Z ->
  Report.is_dict data = true ->
  Report.is_dict (Report.sub "totals" data) = true ->
  Report.field "grand_total_human" (VStr "0 B") (Report.sub "totals" data) = VStr total ->
  Py.contains Py.nl total = false ->
  Storage.total_lines block_width container_repr data
  = ok ["   "
        ++ (PrettyTable.spaces (Z.max 0 (block_width total) - block_width total)
            ++ total)
        ++ " "]
  /\ ((0 <= block_width total)%Z ->
      Storage.total_lines block_width container_repr data = ok ["   " ++ total ++ " "]).
Proof.
  intros Hempty Hd Ht Hg Hone.
  assert (Hline : Storage.total_lines block_width container_repr data
                  = ok ["   "
                        ++ (PrettyTable.spaces
                              (Z.max 0 (block_width total) - block_width total)
                            ++ total)
                        ++ " "]).
  { unfold Storage.total_lines, Report.sub in *. run.
    rewrite Hg. do 2 f_equal.
    unfold PrettyTable.get_string, PrettyTable.compute_widths, PrettyTable.stringify_row.
    cbn [Storage.total_table PrettyTable.build PrettyTable.create
         PrettyTable.set_field_names
         PrettyTable.set_align_all PrettyTable.set_header PrettyTable.add_row
         PrettyTable.set_align PrettyTable.new fold_left
         PrettyTable.rows PrettyTable.header PrettyTable.field_names PrettyTable.align
         map app PrettyTable.format_row PrettyTable.widen Py.str].
    unfold PrettyTable.width_of, PrettyTable.height_of.
    rewrite (split_lines_single total Hone).
    cbn [Py.split_lines map list_max fold_right List.length seq Py.join
         PrettyTable.row_line nth PrettyTable.align_of String.eqb Ascii.eqb Bool.eqb
         Nat.max PrettyTable.widest fold_left].
    rewrite (split_lines_single total Hone).
    cbn [nth]. unfold PrettyTable.justify. rewrite Hempty.
    reflexivity. }
  split; [exact Hline |]. intros Hpos. rewrite Hline.
  replace (Z.max 0 (block_width total) - block_width total)%Z with 0%Z by lia.
  reflexivity.
Qed.


End StorageExtras.

(* ===================================================================== *)
(** ** Runs on the sample documents *)
(* ===================================================================== *)

(** On a table whose texts are narrow the display width is the number of
    characters. *)
Ltac narrow_tables Hn :=
  repeat (rewrite (get_string_narrow _ _ _ Hn) by (vm_compute; reflexivity)).

Ltac narrow_run Hn :=
  cbv - [PrettyTable.get_string Storage.replace_all Py.join print_lines];
  narrow_tables Hn.

Lemma narrow_width_is_narrow s :
  Py.narrow s = true -> narrow_width s = Z.of_nat (Py.len s).
Proof. reflexivity. Qed.

Section SampleRuns.
Variable block_width : string -> Z.
Variable container_repr : value -> string.
Variable encodable : string -> bool.
Hypothesis narrow_widths :
  forall s, Py.narrow s = true -> block_width s = Z.of_nat (Py.len s).

(** C6.  Line 18 computes the label of the runtime type, "✓ Bundled
    (self-contained)" for "bundled" and "System" for "system", but no later
    line reads it: what [main] prints does not depend on it, the Runtime
    table has the rows Python, Sox and Data only, and the two documents that
    differ in the type alone print the same lines, none of which shows a
    label. *)
Theorem runtime_type_label_never_printed :
  Doctor.runtime_type_value (VStr "bundled") = ok (VStr "✓ Bundled (self-contained)")
  /\ Doctor.runtime_type_value (VStr "system") = ok (VStr "System")
  /\ (forall label label' rt dt st tt sv et,
        Doctor.lines_of block_width container_repr
          (Doctor.mk_tables label rt dt st tt sv et)
        = Doctor.lines_of block_width container_repr
            (Doctor.mk_tables label' rt dt st tt sv et))
  /\ exists lines,
       (forall out,
          Doctor.main block_width container_repr encodable Samples.bundled_runtime out
          = print_lines encodable lines out)
       /\ (forall out,
             Doctor.main block_width container_repr encodable Samples.system_runtime out
             = print_lines encodable lines out)
       /\ (forallb encodable lines = true ->
           Doctor.main block_width container_repr encodable Samples.bundled_runtime []
           = (lines, ok tt)
           /\ Doctor.main block_width container_repr encodable Samples.system_runtime []
              = (lines, ok tt))
       /\ nth 1 lines "" = Py.join Py.nl [" Python   "; " Sox      "; " Data     "]
       /\ forallb (fun line => negb (Py.contains "Bundled" line)
                               && negb (Py.contains "System" line)) lines = true.
Proof.
  split; [reflexivity |]. split; [reflexivity |]. split; [reflexivity |].
  set (lines :=
         ["Runtime:"; Py.join Py.nl [" Python   "; " Sox      "; " Data     "];
          ""; "Dependencies:";
          Py.join Py.nl [" Sox     ✗ "; " afplay  ✗ "; " say     ✗ "];
          ""; "Speech-to-Text:";
          Py.join Py.nl [" Engine    installed  Models ";
                         " Whisper       ✗        0    ";
                         " Parakeet      ✗        0    "];
          ""; "Text-to-Speech:";
          Py.join Py.nl [" Engine  installed  Voices ";
                         " Piper       ✗        0    ";
                         " Kokoro      ✗        0    "];
          ""; "Background Services:";
          Py.join Py.nl [" Playback       Stopped     ";
                         " Kokoro Server  Not running "]]).
  assert (Hb : forall out,
             Doctor.main block_width container_repr encodable Samples.bundled_runtime out
             = print_lines encodable lines out).
  { intros out. rewrite main_run. narrow_run narrow_widths.
    apply (f_equal (fun l => print_lines encodable l out)). vm_compute. reflexivity. }
  assert (Hs : forall out,
             Doctor.main block_width container_repr encodable Samples.system_runtime out
             = print_lines encodable lines out).
  { intros out. rewrite main_run. narrow_run narrow_widths.
    apply (f_equal (fun l => print_lines encodable l out)). vm_compute. reflexivity. }
  exists lines. split; [exact Hb |]. split; [exact Hs |]. split.
  - intros Henc. rewrite Hb, Hs, (print_lines_all encodable lines [] Henc).
    split; reflexivity.
  - split; vm_compute; reflexivity.
Qed.

(** C3.  A path that contains the label "Size": the Dependencies table is
    built without a header, yet line 27 replaces the labels in its text, so
    the returned text shows the path with "Size" removed and the original
    path nowhere. *)
Theorem header_replace_corrupts_data_cell :
  exists text,
    Storage.format_storage_table block_width container_repr Samples.path_with_label
    = ok text
    /\ Py.contains "/opt/Size/python" text = false
    /\ Py.contains " Python  12 MB  /opt//python " text = true.
Proof.
  assert (E : Storage.format_storage_table block_width container_repr
                Samples.path_with_label
              = Storage.format_storage_table narrow_width plain_repr
                  Samples.path_with_label).
  { transitivity (Storage.format_storage_table narrow_width container_repr
                    Samples.path_with_label).
    - narrow_run narrow_widths. reflexivity.
    - vm_compute. reflexivity. }
  rewrite E. eexists. split; [vm_compute; reflexivity |].
  split; vm_compute; reflexivity.
Qed.

(** C5.  A downloaded model whose alias is "Alias" and whose path holds
    "Path": lines 58-67 list it, with its three cells, but line 71 replaces
    the labels in the text of the header-less table, so the block shows
    blanks for the alias and the path cut short, and the returned text
    holds neither. *)
Theorem model_alias_erased_by_replace :
  Storage.downloaded_models Samples.model_named_alias
  = ok [VDict [("alias", VStr "Alias"); ("downloaded", VBool true);
               ("size_human", VStr "1 MB"); ("path", VStr "/m/Path")]]
  /\ Storage.model_row
       (VDict [("alias", VStr "Alias"); ("downloaded", VBool true);
               ("size_human", VStr "1 MB"); ("path", VStr "/m/Path")])
     = ok [VStr "Alias"; VStr "1 MB"; VStr "/m/Path"]
  /\ Storage.models_lines block_width container_repr Samples.model_named_alias
     = ok ["STT Models"; "     1 MB  /m/ "; ""]
  /\ exists text,
       Storage.format_storage_table block_width container_repr
         Samples.model_named_alias = ok text
       /\ Py.contains "Alias" text = false
       /\ Py.contains "/m/Path" text = false
       /\ Py.contains (Py.join Py.nl ["STT Models"; "     1 MB  /m/ "; ""]) text = true.
Proof.
  split; [reflexivity |]. split; [reflexivity |]. split.
  - transitivity (Storage.models_lines narrow_width container_repr
                    Samples.model_named_alias).
    + narrow_run narrow_widths. reflexivity.
    + vm_compute. reflexivity.
  - assert (E : Storage.format_storage_table block_width container_repr
                  Samples.model_named_alias
                = Storage.format_storage_table narrow_width plain_repr
                    Samples.model_named_alias).
    { transitivity (Storage.format_storage_table narrow_width container_repr
                      Samples.model_named_alias).
      - narrow_run narrow_widths. reflexivity.
      - vm_compute. reflexivity. }
    rewrite E. eexists. split; [vm_compute; reflexivity |].
    repeat split; vm_compute; reflexivity.
Qed.

End SampleRuns.

(** C4, as stated, fails on the sample report, none of whose voices is
    listed: the line of the block is "  (no voices downloaded)", with two
    leading blanks, and no line of the text is "(no voices downloaded)". *)
Lemma no_voices_line_is_indented :
  Storage.downloaded_voices Samples.storage_report = ok []
  /\ Storage.voices_lines narrow_width plain_repr Samples.storage_report
     = ok ["TTS Voices"; "  (no voices downloaded)"; ""]
  /\ exists text,
       Storage.format_storage_table narrow_width plain_repr Samples.storage_report
       = ok text
       /\ existsb (String.eqb "  (no voices downloaded)") (Py.split_lines text) = true
       /\ existsb (String.eqb "(no voices downloaded)") (Py.split_lines text) = false.
Proof.
  split; [reflexivity |]. split; [reflexivity |].
  eexists. split; [vm_compute; reflexivity |]. split; vm_compute; reflexivity.
Qed.

(** C10, as stated, fails on an object whose "dependencies" is a number:
    the script raises at line 21 and returns no text at all. *)
Lemma storage_skeleton_needs_report :
  Storage.format_storage_table narrow_width plain_repr Samples.dependencies_not_a_mapping
  = raise AttributeError
  /\ ~ exists text,
         Storage.format_storage_table narrow_width plain_repr
           Samples.dependencies_not_a_mapping
         = ok text.
Proof.
  split; [reflexivity |]. intros [text H]. vm_compute in H. discriminate H.
Qed.

(* ===================================================================== *)
(** ** The theorems at the sample documents *)
(* ===================================================================== *)

Lemma non_object_input_rejected_witness :
  Report.is_dict (VList [VInt 1; VInt 2]) = false
  /\ Doctor.main narrow_width plain_repr utf8_stdout (VList [VInt 1; VInt 2]) []
     = ([], raise AttributeError)
  /\ printed (Doctor.main narrow_width plain_repr utf8_stdout (VList [VInt 1; VInt 2])) []
     = []
  /\ Storage.script narrow_width plain_repr utf8_stdout (VList [VInt 1; VInt 2]) []
     = ([], raise AttributeError).
Proof.
  split; [reflexivity |].
  pose proof (non_object_input_rejected narrow_width plain_repr utf8_stdout
                (VList [VInt 1; VInt 2]) [] eq_refl) as H.
  split; [exact (proj1 H) |]. split; [exact (proj1 (proj2 H)) |].
  exact (proj1 (proj2 (proj2 (proj2 H)))).
Defined.

Lemma header_replace_corrupts_data_cell_witness :
  (forall s, Py.narrow s = true -> narrow_width s = Z.of_nat (Py.len s))
  /\ exists text,
       Storage.format_storage_table narrow_width plain_repr Samples.path_with_label
       = ok text
       /\ Py.contains "/opt/Size/python" text = false
       /\ Py.contains " Python  12 MB  /opt//python " text = true.
Proof.
  split; [exact narrow_width_is_narrow |].
  exact (header_replace_corrupts_data_cell narrow_width plain_repr
           narrow_width_is_narrow).
Defined.

Lemma tts_voices_section_lists_downloaded_witness :
  Report.storage Samples.listing_report = true
  /\ exists body,
       Storage.voices_lines narrow_width plain_repr Samples.listing_report
       = ok ["TTS Voices"; body; ""]
       /\ Storage.downloaded_voices Samples.listing_report
          = ok [VDict [("alias", VStr "amy"); ("downloaded", VBool true);
                       ("provider", VStr "piper"); ("size_human", VStr "60 MB");
                       ("path", VStr "/vtt/amy.onnx")]]
       /\ body = " amy  piper  60 MB  /vtt/amy.onnx "
       /\ Py.contains "/vtt/amy.onnx" body = true.
Proof.
  split; [reflexivity |].
  destruct (tts_voices_section_lists_downloaded narrow_width plain_repr
              Samples.listing_report eq_refl)
    as (body & Hlines & _ & Hlisted & _ & _ & Htable).
  exists body. split; [exact Hlines |]. split; [exact Hlisted |].
  destruct (Htable _ eq_refl ltac:(vm_compute; discriminate)) as [_ Hfree].
  destruct (Hfree ltac:(vm_compute; reflexivity) ltac:(vm_compute; reflexivity)
              ltac:(vm_compute; reflexivity) ltac:(vm_compute; reflexivity))
    as [Hsame Hshown].
  split; [rewrite Hsame; vm_compute; reflexivity |].
  apply (Hshown
           (VDict [("alias", VStr "amy"); ("downloaded", VBool true);
                   ("provider", VStr "piper"); ("size_human", VStr "60 MB");
                   ("path", VStr "/vtt/amy.onnx")])
           "/vtt/amy.onnx" "/vtt/amy.onnx"); vm_compute; auto.
Defined.

Lemma model_alias_erased_by_replace_witness :
  (forall s, Py.narrow s = true -> narrow_width s = Z.of_nat (Py.len s))
  /\ Storage.models_lines narrow_width plain_repr Samples.model_named_alias
     = ok ["STT Models"; "     1 MB  /m/ "; ""].
Proof.
  split; [exact narrow_width_is_narrow |].
  exact (proj1 (proj2 (proj2 (model_alias_erased_by_replace narrow_width plain_repr
                                narrow_width_is_narrow)))).
Defined.

Lemma runtime_type_label_never_printed_witness :
  (forall s, Py.narrow s = true -> narrow_width s = Z.of_nat (Py.len s))
  /\ exists lines,
       Doctor.main narrow_width plain_repr utf8_stdout Samples.bundled_runtime []
       = (lines, ok tt)
       /\ Doctor.main narrow_width plain_repr utf8_stdout Samples.system_runtime []
          = (lines, ok tt)
       /\ nth 1 lines "" = Py.join Py.nl [" Python   "; " Sox      "; " Data     "]
       /\ forallb (fun line => negb (Py.contains "Bundled" line)
                               && negb (Py.contains "System" line)) lines = true.
Proof.
  split; [exact narrow_width_is_narrow |].
  destruct (runtime_type_label_never_printed narrow_width plain_repr utf8_stdout
              narrow_width_is_narrow)
    as (_ & _ & _ & lines & Hb & Hs & Hall & Hrow & Hnone).
  exists lines.
  assert (Henc : forallb utf8_stdout lines = true).
  { destruct (forallb utf8_stdout lines) eqn:E; [reflexivity |].
    pose proof (Hb []) as Hrun.
    destruct (print_lines_stops utf8_stdout lines [] E) as (k & _ & _ & _ & Hp).
    rewrite Hp in Hrun. apply (f_equal snd) in Hrun. vm_compute in Hrun.
    discriminate Hrun. }
  destruct (Hall Henc) as [H1 H2].
  split; [exact H1 |]. split; [exact H2 |]. split; [exact Hrow | exact Hnone].
Defined.

Lemma kokoro_server_rows_agree_witness :
  Report.doctor Samples.doctor_report = true
  /\ exists tb status voices service,
       Doctor.build_tables plain_repr Samples.doctor_report = ok tb
       /\ nth 1 (PrettyTable.rows (Doctor.the_tts_table tb)) []
          = [VStr "Kokoro"; VStr status; voices]
       /\ nth 1 (PrettyTable.rows (Doctor.the_services_table tb)) []
          = [VStr "Kokoro Server"; VStr service]
       /\ (service = "Running" <-> Py.ends_with " (server)" status = true).
Proof.
  split; [reflexivity |].
  exact (kokoro_server_rows_agree plain_repr Samples.doctor_report eq_refl).
Defined.

Lemma storage_skeleton_witness :
  Report.storage Samples.listing_report = true
  /\ exists deps dirs models voices total,
       Storage.format_storage_table narrow_width plain_repr Samples.listing_report
       = ok (Py.join Py.nl
               [Py.nl ++ "VTT Storage Usage"; Py.repeat_str "=" 60 ++ Py.nl;
                "Dependencies"; deps; "";
                "Storage Directories"; dirs; "";
                "STT Models"; models; "";
                "TTS Voices"; voices; "";
                total])
       /\ Py.contains "201 MB" total = true.
Proof.
  split; [reflexivity |].
  destruct (storage_skeleton narrow_width plain_repr Samples.listing_report eq_refl)
    as (deps & dirs & models & voices & total & Htext & _ & Hshown & _).
  exists deps, dirs, models, voices, total. split; [exact Htext |].
  apply Hshown. vm_compute. auto.
Defined.

Lemma doctor_failure_output_witness :
  snd (Doctor.main narrow_width plain_repr utf8_stdout Samples.surrogate_path
         ["earlier output"])
  = raise UnicodeEncodeError
  /\ fst (Doctor.main narrow_width plain_repr utf8_stdout Samples.surrogate_path
            ["earlier output"])
     = ["earlier output"; "Runtime:"]
  /\ exists tb k,
       Doctor.build_tables plain_repr Samples.surrogate_path = ok tb
       /\ utf8_stdout (nth k (Doctor.lines_of narrow_width plain_repr tb) "") = false
       /\ fst (Doctor.main narrow_width plain_repr utf8_stdout Samples.surrogate_path
                 ["earlier output"])
          = (["earlier output"]
             ++ firstn k (Doctor.lines_of narrow_width plain_repr tb))%list.
Proof.
  split; [vm_compute; reflexivity |]. split; [vm_compute; reflexivity |].
  destruct (doctor_failure_output narrow_width plain_repr utf8_stdout
              Samples.surrogate_path ["earlier output"] UnicodeEncodeError
              ltac:(vm_compute; reflexivity))
    as [(Hb & _) | (_ & tb & k & Hb & _ & _ & Hn & Hout)].
  - vm_compute in Hb. discriminate Hb.
  - exists tb, k. split; [exact Hb |]. split; [exact Hn | exact Hout].
Defined.

Lemma key_error_only_from_missing_pid_witness :
  snd (Doctor.main narrow_width plain_repr utf8_stdout Samples.active_without_pid [])
  = raise (KeyError "pid")
  /\ Report.has "pid" (Report.sub "playback" Samples.active_without_pid) = false.
Proof.
  split; [reflexivity |].
  exact (proj1 (proj2 (proj2 (key_error_only_from_missing_pid narrow_width plain_repr
                                utf8_stdout Samples.active_without_pid [] "pid"
                                eq_refl)))).
Defined.

Lemma non_text_runtime_type_raises_witness :
  Report.is_str (VInt 5) = false
  /\ Doctor.main narrow_width plain_repr utf8_stdout
       (VDict [("runtime", VDict [("type", VInt 5)])]) []
     = ([], raise TypeError).
Proof.
  split; [reflexivity |].
  exact (non_text_runtime_type_raises narrow_width plain_repr utf8_stdout
           (VDict [("runtime", VDict [("type", VInt 5)])]) []
           eq_refl eq_refl eq_refl).
Defined.

Lemma non_mapping_runtime_raises_witness :
  Py.lookup "runtime" [("runtime", VNone)] = Some VNone
  /\ Doctor.main narrow_width plain_repr utf8_stdout (VDict [("runtime", VNone)]) []
     = ([], raise AttributeError).
Proof.
  split; [reflexivity |].
  exact (non_mapping_runtime_raises narrow_width plain_repr utf8_stdout
           [("runtime", VNone)] VNone [] eq_refl eq_refl).
Defined.

Lemma doctor_reads_five_keys_witness :
  Py.lookup "runtime" [("verbose", VBool true)] = Py.lookup "runtime" []
  /\ Doctor.main narrow_width plain_repr utf8_stdout (VDict [("verbose", VBool true)]) []
     = Doctor.main narrow_width plain_repr utf8_stdout (VDict []) [].
Proof.
  split; [reflexivity |].
  apply (doctor_reads_five_keys narrow_width plain_repr utf8_stdout
           [("verbose", VBool true)] [] []).
  intros k Hk. simpl in Hk.
  destruct Hk as [<- | [<- | [<- | [<- | [<- | []]]]]]; reflexivity.
Defined.


Lemma deps_table_text_witness :
  (forall s, Py.narrow s = true -> narrow_width s = Z.of_nat (Py.len s))
  /\ Report.is_dict (VDict [("sox", VBool true)]) = true
  /\ exists tb,
       Doctor.deps_table (VDict [("sox", VBool true)]) = ok tb
       /\ PrettyTable.get_string narrow_width plain_repr tb
          = Py.join Py.nl [" Sox     ✓ "; " afplay  ✗ "; " say     ✗ "].
Proof.
  split; [exact narrow_width_is_narrow |]. split; [reflexivity |].
  exact (deps_table_text narrow_width plain_repr narrow_width_is_narrow
           (VDict [("sox", VBool true)]) eq_refl).
Defined.

Lemma services_table_text_when_stopped_witness :
  (forall s, Py.narrow s = true -> narrow_width s = Z.of_nat (Py.len s))
  /\ Report.is_dict (VDict [("server_running", VBool true)]) = true
  /\ exists tb,
       Doctor.services_table (VDict [("server_running", VBool true)]) "Stopped" = ok tb
       /\ PrettyTable.get_string narrow_width plain_repr tb
          = Py.join Py.nl [" Playback       Stopped "; " Kokoro Server  Running "].
Proof.
  split; [exact narrow_width_is_narrow |]. split; [reflexivity |].
  exact (services_table_text_when_stopped narrow_width plain_repr narrow_width_is_narrow
           (VDict [("server_running", VBool true)]) eq_refl).
Defined.

Lemma runtime_table_text_witness :
  (forall s, Py.narrow s = true -> narrow_width s = Z.of_nat (Py.len s))
  /\ Py.contains Py.nl "/usr/bin/python3" = false
  /\ exists tb,
       Doctor.runtime_table (VDict [("python", VStr "/usr/bin/python3")]) = ok tb
       /\ PrettyTable.get_string narrow_width plain_repr tb
          = Py.join Py.nl
              [" Python  /usr/bin/python3 ";
               " Sox                      ";
               " Data                     "].
Proof.
  split; [exact narrow_width_is_narrow |]. split; [reflexivity |].
  exact (runtime_table_text narrow_width plain_repr narrow_width_is_narrow
           (VDict [("python", VStr "/usr/bin/python3")])
           "/usr/bin/python3" "" "" eq_refl eq_refl eq_refl eq_refl eq_refl eq_refl
           eq_refl).
Defined.

Lemma kokoro_row_shows_server_suffix_witness :
  (forall s, Py.narrow s = true -> narrow_width s = Z.of_nat (Py.len s))
  /\ Report.doctor Samples.doctor_report = true
  /\ exists tb,
       Doctor.build_tables plain_repr Samples.doctor_report = ok tb
       /\ PrettyTable.format_row plain_repr
            (nth 1 (PrettyTable.rows (Doctor.the_tts_table tb)) [])
          = ["Kokoro"; "✓ (server)"; "3"].
Proof.
  split; [exact narrow_width_is_narrow |]. split; [reflexivity |].
  destruct (kokoro_row_shows_server_suffix narrow_width plain_repr utf8_stdout
              narrow_width_is_narrow Samples.doctor_report eq_refl)
    as (tb & Hb & _ & _ & Hrow).
  exists tb. split; [exact Hb |].
  exact (proj1 (Hrow eq_refl eq_refl eq_refl)).
Defined.

Lemma stt_models_section_lists_downloaded_witness :
  Report.storage Samples.listing_report = true
  /\ exists body,
       Storage.models_lines narrow_width plain_repr Samples.listing_report
       = ok ["STT Models"; body; ""]
       /\ body = " whisper-base  141 MB  /hf/whisper-base "
       /\ Py.contains "whisper-base" body = true.
Proof.
  split; [reflexivity |].
  destruct (stt_models_section_lists_downloaded narrow_width plain_repr
              Samples.listing_report eq_refl)
    as (body & Hlines & _ & _ & _ & Htable & _).
  exists body. split; [exact Hlines |].
  destruct (Htable _ eq_refl ltac:(vm_compute; discriminate)) as [_ Hfree].
  destruct (Hfree ltac:(vm_compute; reflexivity) ltac:(vm_compute; reflexivity)
              ltac:(vm_compute; reflexivity))
    as [Hsame Hshown].
  split; [rewrite Hsame; vm_compute; reflexivity |].
  apply (Hshown
           (VDict [("alias", VStr "whisper-base"); ("downloaded", VBool true);
                   ("size_human", VStr "141 MB"); ("path", VStr "/hf/whisper-base")])
           "whisper-base" "whisper-base"); vm_compute; auto.
Defined.

Lemma storage_reads_five_keys_witness :
  Py.lookup "totals" [("generated_at", VStr "today")] = Py.lookup "totals" []
  /\ Storage.format_storage_table narrow_width plain_repr
       (VDict [("generated_at", VStr "today")])
     = Storage.format_storage_table narrow_width plain_repr (VDict []).
Proof.
  split; [reflexivity |].
  apply (storage_reads_five_keys narrow_width plain_repr
           [("generated_at", VStr "today")] []).
  intros k Hk. simpl in Hk.
  destruct Hk as [<- | [<- | [<- | [<- | [<- | []]]]]]; reflexivity.
Defined.

Lemma non_mapping_dependencies_raises_witness :
  Report.is_dict VNone = false
  /\ Storage.format_storage_table narrow_width plain_repr
       (VDict [("dependencies", VNone)])
     = raise AttributeError.
Proof.
  split; [reflexivity |].
  exact (non_mapping_dependencies_raises narrow_width plain_repr
           [("dependencies", VNone)] VNone eq_refl eq_refl).
Defined.

Lemma downloaded_models_cases_witness :
  Report.is_dict (VDict [("models", VDict [("items", VStr "abc")])]) = true
  /\ Storage.downloaded_models (VDict [("models", VDict [("items", VStr "abc")])])
     = raise AttributeError.
Proof.
  split; [reflexivity |].
  exact (proj1 (proj2 (proj2
           (downloaded_models_cases (VDict [("models", VDict [("items", VStr "abc")])])
              eq_refl eq_refl)))
           "a"%char "bc" eq_refl).
Defined.

Lemma total_line_text_witness :
  narrow_width "" = 0%Z
  /\ Py.contains Py.nl "186.1 MB" = false
  /\ Storage.total_lines narrow_width plain_repr Samples.storage_report
     = ok ["   186.1 MB "].
Proof.
  split; [reflexivity |]. split; [reflexivity |].
  exact (proj2 (total_line_text narrow_width plain_repr Samples.storage_report
                  "186.1 MB" eq_refl eq_refl eq_refl eq_refl eq_refl)
           ltac:(vm_compute; discriminate)).
Defined.


Lemma env_table_cases_witness :
  [("VTT_DATA_DIR", VStr "/tmp/vtt")] <> []
  /\ Doctor.env_table (VDict [("VTT_DATA_DIR", VStr "/tmp/vtt")])
     = ok (Some (PrettyTable.mk ["VTT_"; "Value"]
                   [[VStr "VTT_DATA_DIR"; VStr "/tmp/vtt"]] false
                   [("Value", PrettyTable.l); ("VTT_", PrettyTable.l);
                    ("VTT_", PrettyTable.c); ("Value", PrettyTable.c)])).
Proof.
  assert (Hne : [("VTT_DATA_DIR", VStr "/tmp/vtt")] <> []) by discriminate.
  split; [exact Hne |].
  exact (proj1 (proj2 (env_table_cases (VDict [("VTT_DATA_DIR", VStr "/tmp/vtt")])))
           [("VTT_DATA_DIR", VStr "/tmp/vtt")] eq_refl Hne).
Defined.

Lemma playback_status_cases_witness :
  Report.is_dict (VDict [("active", VBool true); ("pid", VInt 4242)]) = true
  /\ Doctor.playback_status plain_repr
       (VDict [("active", VBool true); ("pid", VInt 4242)])
     = ok "Active (PID: 4242)".
Proof.
  split; [reflexivity |].
  exact (proj1 (proj2 (proj2 (playback_status_cases plain_repr
                                (VDict [("active", VBool true); ("pid", VInt 4242)]))))
           eq_refl eq_refl eq_refl).
Defined.
